(** * bot_pb_estimator: a shallow embedding of the Player/Banker/Tie tracker

    The development follows [src/bot_pb_estimator.py].  Python values are
    modelled as follows.

    - [str] is [string]; the three results are the strings "P", "B", "T".
    - [int] is [Z].
    - [float] is kept abstract behind the class [Arith] and instantiated
      twice: with IEEE 754 binary64 (Rocq's primitive floats, the arithmetic
      CPython performs) and with the rationals [Q] (the exact values the
      floats approximate).
    - a [dict] with string keys is an association list in insertion order,
      the order in which Python iterates over it.
    - [collections.deque] is a list of items, oldest first, with its
      [maxlen].
    - a raised exception is the [Raise] case of [result].
    - [bot.send_message] is the [message] a handler returns: the message
      records the values the text template interpolates. *)

From Stdlib Require Import ZArith QArith Lqa PrimFloat Ascii.
From stdpp Require Import gmap strings list.

Local Open Scope string_scope.
Local Open Scope list_scope.
Local Open Scope Z_scope.

(** ** Exceptions *)

Inductive exn : Set :=
  ValueError | KeyError | IndexError | ZeroDivisionError | TypeError.

Inductive result (A : Type) : Type :=
| Ok (a : A)
| Raise (e : exn).
Arguments Ok {A} a.
Arguments Raise {A} e.

#[global] Instance result_ret : MRet result := λ A, @Ok A.
#[global] Instance result_bind : MBind result :=
  λ A B f m, match m with Ok a => f a | Raise e => Raise e end.

(** ** Python containers *)

Module Py.

(** [sum(xs)] over ints: a left fold starting from 0. *)
Definition sum (xs : list Z) : Z := fold_left Z.add xs 0.

(** [len(xs)]. *)
Definition len {A} (xs : list A) : Z := Z.of_nat (length xs).

(** [xs[i:]] for any int [i]: a negative [i] counts from the end and the
    start is clamped to the list. *)
Definition slice_from {A} (i : Z) (xs : list A) : list A :=
  if i <? 0 then drop (Z.to_nat (Z.max 0 (len xs + i))) xs
  else drop (Z.to_nat i) xs.

(** [xs[i]] for any int [i]. *)
Definition getitem {A} (xs : list A) (i : Z) : result A :=
  let j := if i <? 0 then len xs + i else i in
  if j <? 0 then Raise IndexError
  else match xs !! Z.to_nat j with
       | Some x => Ok x
       | None => Raise IndexError
       end.

(** [dict]: entries in insertion order, keys pairwise distinct. *)
Definition dict (V : Type) : Type := list (string * V).

Definition keys {V} (d : dict V) : list string := fst <$> d.
Definition values {V} (d : dict V) : list V := snd <$> d.

(** [d.get(k)]. *)
Fixpoint get {V} (d : dict V) (k : string) : option V :=
  match d with
  | [] => None
  | (k', v) :: d' => if String.eqb k k' then Some v else get d' k
  end.

(** [d.get(k, default)]. *)
Definition get_default {V} (d : dict V) (k : string) (default : V) : V :=
  from_option id default (get d k).

(** [d[k]]. *)
Definition lookup {V} (d : dict V) (k : string) : result V :=
  match get d k with
  | Some v => Ok v
  | None => Raise KeyError
  end.

(** [collections.deque(maxlen=...)]: [items] holds the elements from the
    left end (oldest) to the right end (newest). *)
Record deque : Type := Deque { items : list string; maxlen : option nat }.

Definition deque_new (maxlen : option nat) : deque := Deque [] maxlen.

(** [d.append(x)]: the item is added on the right; a deque that is then
    longer than its [maxlen] drops one item from the left. *)
Definition append (x : string) (d : deque) : deque :=
  let l := items d ++ [x] in
  match maxlen d with
  | Some m => if (m <? length l)%nat then Deque (tail l) (maxlen d)
              else Deque l (maxlen d)
  | None => Deque l (maxlen d)
  end.

(** [d.pop()]: removes and returns the rightmost item. *)
Definition pop (d : deque) : result (string * deque) :=
  match last (items d) with
  | Some x => Ok (x, Deque (removelast (items d)) (maxlen d))
  | None => Raise IndexError
  end.

(** [d.clear()]. *)
Definition clear (d : deque) : deque := Deque [] (maxlen d).

(** [bool(d)]: a deque is true when it is not empty. *)
Definition truth (d : deque) : bool :=
  match items d with [] => false | _ => true end.

End Py.

(** ** Module constants *)

Definition MAX_HISTORY : nat := 300.
Definition MIN_FOR_PRED : Z := 10.
Definition PRED_WINDOW : Z := 15.

(** The three results [normalize_result] can return. *)
Definition SYMBOLS : list string := ["P"; "B"; "T"].
Definition is_symbol (x : string) : Prop := x ∈ SYMBOLS.

(** ** Estimator: the functions without arithmetic on floats *)

(** The loop of [streak] over [range(len(history) - 2, -1, -1)]: [k]
    iterations remain, the index visited next is [k - 1]; [break] returns the
    count reached so far. *)
Fixpoint streak_loop (h : list string) (last : string) (k : nat) (s : Z)
  : result Z :=
  match k with
  | O => Ok s
  | S i =>
      x ← Py.getitem h (Z.of_nat i);
      if String.eqb x last then streak_loop h last i (s + 1) else Ok s
  end.

Definition streak (history : Py.deque) : result (option string * Z) :=
  if negb (Py.truth history) then Ok (None, 0)
  else
    last ← Py.getitem (Py.items history) (-1);
    s ← streak_loop (Py.items history) last
          (Z.to_nat (Py.len (Py.items history) - 2 + 1)) 1;
    Ok (Some last, s).

(** [sum(1 for x in seq if x == k)]. *)
Definition count_eq (k : string) (seq : list string) : Z :=
  Py.sum ((λ _, 1) <$> List.filter (λ x, String.eqb x k) seq).

Definition counts_from (seq : list string) : Py.dict Z :=
  [ ("P", count_eq "P" seq);
    ("B", count_eq "B" seq);
    ("T", count_eq "T" seq) ].

(** ** Float arithmetic

    The operations the program applies to floats.  [of_int n] is the
    conversion Python inserts when an int meets a float ([1.0 + n]), and the
    value of the literal [1.0] is [of_int 1]. *)

Class Arith (F : Type) : Type := {
  of_int : Z → F;
  fadd : F → F → F;
  fmul : F → F → F;
  (** the quotient by a divisor that is not zero *)
  fquot : F → F → F;
  (** [x == 0] *)
  fis_zero : F → bool;
  (** [x > y] *)
  fgt : F → F → bool;
}.

(** Binary64.  The conversion from an int doubles along the binary digits:
    every step is exact below 2^53, far above the length of any list. *)
Fixpoint float_of_pos (p : positive) : float :=
  match p with
  | xH => 1%float
  | xO q => (2 * float_of_pos q)%float
  | xI q => (2 * float_of_pos q + 1)%float
  end.

Definition float_of_Z (z : Z) : float :=
  match z with
  | Z0 => 0%float
  | Zpos p => float_of_pos p
  | Zneg p => (- float_of_pos p)%float
  end.

Definition binary64 : Arith float := {|
  of_int := float_of_Z;
  fadd := PrimFloat.add;
  fmul := PrimFloat.mul;
  fquot := PrimFloat.div;
  fis_zero := λ x, PrimFloat.eqb x 0%float;
  fgt := λ x y, PrimFloat.ltb y x;
|}.

(** Exact rational arithmetic. *)
Definition exact : Arith Q := {|
  of_int := inject_Z;
  fadd := Qplus;
  fmul := Qmult;
  fquot := Qdiv;
  fis_zero := λ x, Qeq_bool x 0%Q;
  fgt := λ x y, negb (Qle_bool x y);
|}.

Section Estimator.

Context {F : Type} {A : Arith F}.

(** [x / y] on floats: Python raises on a zero divisor. *)
Definition truediv (x y : F) : result F :=
  if fis_zero y then Raise ZeroDivisionError else Ok (fquot x y).

(** [sum(xs)] over floats: a left fold starting from the int 0. *)
Definition fsum (xs : list F) : F := fold_left fadd xs (of_int 0).

Definition default_alpha : Py.dict F :=
  [("P", of_int 1); ("B", of_int 1); ("T", of_int 1)].

Definition dirichlet_posterior_mean
    (counts : Py.dict Z) (alpha : option (Py.dict F)) : result (Py.dict F) :=
  let alpha := default default_alpha alpha in
  let total := Py.sum (Py.values counts) in
  let denom := fadd (fsum (Py.values alpha)) (of_int total) in
  mapM (λ k,
          a ← Py.lookup alpha k;
          v ← truediv (fadd a (of_int (Py.get_default counts k 0))) denom;
          Ok (k, v))
       (Py.keys alpha).

(** [max(items, key=key)]: the first item is the candidate, and a later
    item replaces the candidate only when its key is greater. *)
Fixpoint max_loop (key : string → option F) (items : list string)
    (maxitem : string) (maxval : option F) : result string :=
  match items with
  | [] => Ok maxitem
  | item :: rest =>
      match key item, maxval with
      | Some val, Some mv =>
          if fgt val mv then max_loop key rest item (Some val)
          else max_loop key rest maxitem maxval
      | _, _ => Raise TypeError
      end
  end.

Definition max_by_key (items : list string) (key : string → option F)
  : result string :=
  match items with
  | [] => Raise ValueError
  | item :: rest => max_loop key rest item (key item)
  end.

End Estimator.

(** ** Session store *)

Record UserState : Type := {
  history : Py.deque;
  last_added : option string;
}.

(** [USER] is the dict of sessions; [get_state] registers a fresh session
    for an unseen chat and returns the stored state. *)
Definition get_state (chat_id : Z) (USER : gmap Z UserState)
  : gmap Z UserState * UserState :=
  match USER !! chat_id with
  | Some st => (USER, st)
  | None =>
      let st := {| history := Py.deque_new (Some MAX_HISTORY);
                   last_added := None |} in
      (<[chat_id := st]> USER, st)
  end.

(** ** Messages

    One constructor per [bot.send_message] call of the source, with the
    values its text interpolates.  The prediction text prints [post[k] * 100]
    and the statistics text [pct[k]], both with one decimal. *)

Inductive message (F : Type) : Type :=
| MsgNoData
| MsgStats (n : Z) (c : Py.dict Z) (pct : Py.dict F)
           (last_txt : string) (st_len : Z) (last20 : string)
| MsgNotEnough (min_for_pred : Z) (n : Z)
| MsgPrediction (w_n : Z) (last_seq : string) (post : Py.dict F)
                (pick_name : string)
| MsgNothingToUndo
| MsgUndo (removed : string)
| MsgReset
| MsgStart
| MsgHelp
| MsgUnrecognized
| MsgAdded (r : string) (n : Z).
Arguments MsgNoData {F}.
Arguments MsgStats {F} n c pct last_txt st_len last20.
Arguments MsgNotEnough {F} min_for_pred n.
Arguments MsgPrediction {F} w_n last_seq post pick_name.
Arguments MsgNothingToUndo {F}.
Arguments MsgUndo {F} removed.
Arguments MsgReset {F}.
Arguments MsgStart {F}.
Arguments MsgHelp {F}.
Arguments MsgUnrecognized {F}.
Arguments MsgAdded {F} r n.

(** The dict [name] of [send_stats] and [next_prediction]. *)
Definition name : Py.dict string :=
  [("P", "Player"); ("B", "Banker"); ("T", "Tie")].

(** ** Handlers

    A handler takes the store and returns the store it leaves behind with
    the message it sends, or the exception it raises. *)

Section Handlers.

Context {F : Type} {A : Arith F}.

Definition send_stats (chat_id : Z) (USER : gmap Z UserState)
  : gmap Z UserState * result (message F) :=
  let '(USER, st) := get_state chat_id USER in
  let h := Py.items (history st) in
  let n := Py.len h in
  if n =? 0 then (USER, Ok MsgNoData)
  else
    (USER,
     let c := counts_from h in
     pct ← mapM (λ k,
                   ck ← Py.lookup c k;
                   q ← truediv (of_int ck) (of_int n);
                   Ok (k, fmul q (of_int 100)))
                (Py.keys c);
     '(last, st_len) ← streak (history st);
     let last_txt :=
       match last with
       | Some l => Py.get_default name l "-"
       | None => "-"
       end in
     let last20 := String.concat "" (Py.slice_from (-20) h) in
     Ok (MsgStats n c pct last_txt st_len last20)).

Definition next_prediction (chat_id : Z) (USER : gmap Z UserState)
  : gmap Z UserState * result (message F) :=
  let '(USER, st) := get_state chat_id USER in
  let h := Py.items (history st) in
  let n := Py.len h in
  if n <? MIN_FOR_PRED then (USER, Ok (MsgNotEnough MIN_FOR_PRED n))
  else
    (USER,
     let window := Py.slice_from (- Z.min PRED_WINDOW n) h in
     let w_n := Py.len window in
     let c := counts_from window in
     post ← dirichlet_posterior_mean c (Some default_alpha);
     pick_key ← max_by_key (Py.keys post) (Py.get post);
     pick_name ← Py.lookup name pick_key;
     let last_seq := String.concat "" window in
     Ok (MsgPrediction w_n last_seq post pick_name)).

Definition do_undo (chat_id : Z) (USER : gmap Z UserState)
  : gmap Z UserState * result (message F) :=
  let '(USER, st) := get_state chat_id USER in
  if negb (Py.truth (history st)) then (USER, Ok MsgNothingToUndo)
  else
    match Py.pop (history st) with
    | Raise e => (USER, Raise e)
    | Ok (removed, h) =>
        (<[chat_id := {| history := h; last_added := None |}]> USER,
         Ok (MsgUndo removed))
    end.

Definition do_reset (chat_id : Z) (USER : gmap Z UserState)
  : gmap Z UserState * result (message F) :=
  let '(USER, st) := get_state chat_id USER in
  (<[chat_id := {| history := Py.clear (history st); last_added := None |}]>
     USER,
   Ok MsgReset).

Definition start (chat_id : Z) (USER : gmap Z UserState)
  : gmap Z UserState * result (message F) :=
  (USER, Ok MsgStart).

(** The end of [handle], once [normalize_result] has returned [r]: the
    result is appended and confirmed. *)
Definition handle_add (chat_id : Z) (r : string) (USER : gmap Z UserState)
  : gmap Z UserState * result (message F) :=
  let '(USER, st) := get_state chat_id USER in
  let h := Py.append r (history st) in
  let n := Py.len (Py.items h) in
  (<[chat_id := {| history := h; last_added := Some r |}]> USER,
   Ok (MsgAdded r n)).

(** [str.strip] and [str.upper] are Python's; the handlers of the text
    front end are stated for any pair of such functions. *)
Variables (str_strip str_upper : string → string).

(** [t in (a, b)]. *)
Definition in_pair (t a b : string) : bool :=
  String.eqb t a || String.eqb t b.

Definition normalize_result (text : string) : option string :=
  let t := str_upper (str_strip text) in
  if in_pair t "P" "PLAYER" then Some "P"
  else if in_pair t "B" "BANKER" then Some "B"
  else if in_pair t "T" "TIE" then Some "T"
  else None.

(** [not r] for [r : str | None]. *)
Definition falsy (r : option string) : bool :=
  match r with
  | None => true
  | Some s => String.eqb s ""
  end.

Definition handle (chat_id : Z) (m_text : option string)
    (USER : gmap Z UserState) : gmap Z UserState * result (message F) :=
  let text := str_strip (if falsy m_text then "" else default "" m_text) in
  let rest (text : string) :=
    match normalize_result text with
    | Some r =>
        if falsy (Some r) then (USER, Ok MsgUnrecognized)
        else handle_add chat_id r USER
    | None => (USER, Ok MsgUnrecognized)
    end in
  if String.eqb text "➕ P" then rest "P"
  else if String.eqb text "➕ B" then rest "B"
  else if String.eqb text "➕ T" then rest "T"
  else if String.eqb text "🧹 Reset" then do_reset chat_id USER
  else if String.eqb text "▶️ Next Prediction" then next_prediction chat_id USER
  else if String.eqb text "📊 Stats" then send_stats chat_id USER
  else if String.eqb text "↩️ Undo" then do_undo chat_id USER
  else if String.eqb text "❓ Help" then (USER, Ok MsgHelp)
  else rest text.

(** The updates the bot receives, by the handler that telebot routes them
    to: the five commands and any other message. *)
Inductive update : Type :=
| CmdStart | CmdStats | CmdReset | CmdUndo | CmdNext
| Other (m_text : option string).

Definition dispatch (chat_id : Z) (u : update) (USER : gmap Z UserState)
  : gmap Z UserState * result (message F) :=
  match u with
  | CmdStart => start chat_id USER
  | CmdStats => send_stats chat_id USER
  | CmdReset => do_reset chat_id USER
  | CmdUndo => do_undo chat_id USER
  | CmdNext => next_prediction chat_id USER
  | Other m_text => handle chat_id m_text USER
  end.

(** The store after a sequence of updates. *)
Definition run (us : list (Z * update)) (USER : gmap Z UserState)
  : gmap Z UserState :=
  fold_left (λ USER '(chat_id, u), (dispatch chat_id u USER).1) us USER.

End Handlers.

(** ** Sessions and their invariant *)

(** The state of a chat as the handlers see it. *)
Definition session (USER : gmap Z UserState) (chat_id : Z) : UserState :=
  (get_state chat_id USER).2.

Definition session_items (USER : gmap Z UserState) (chat_id : Z) : list string :=
  Py.items (history (session USER chat_id)).

(** What the handlers maintain for every stored session: the deque keeps the
    bound it was created with, holds at most [MAX_HISTORY] items, and every
    item is one of the three results. *)
Definition state_ok (st : UserState) : Prop :=
  Py.maxlen (history st) = Some MAX_HISTORY
  ∧ (length (Py.items (history st)) ≤ MAX_HISTORY)%nat
  ∧ Forall is_symbol (Py.items (history st)).

Definition store_ok (USER : gmap Z UserState) : Prop :=
  map_Forall (λ _, state_ok) USER.

(** The store after the results [rs] were added to a chat one by one, each
    by the end of [handle]. *)
Definition appends {F : Type} (chat_id : Z) (rs : list string)
    (USER : gmap Z UserState) : gmap Z UserState :=
  fold_left (λ USER r, (handle_add (F:=F) chat_id r USER).1) rs USER.

#[global] Instance is_symbol_dec (x : string) : Decision (is_symbol x).
Proof. unfold is_symbol. apply _. Defined.

(** ** [str.strip] and [str.upper] on ASCII text

    The two library functions on text without characters beyond ASCII, for
    running the handlers on concrete messages. *)

Definition ascii_space (c : ascii) : bool :=
  let n := nat_of_ascii c in
  ((9 <=? n) && (n <=? 13) || (28 <=? n) && (n <=? 32))%nat.

Fixpoint lstrip (s : string) : string :=
  match s with
  | String c s' => if ascii_space c then lstrip s' else s
  | EmptyString => EmptyString
  end.

Definition ascii_strip (s : string) : string :=
  String.rev (lstrip (String.rev (lstrip s))).

Definition upper_char (c : ascii) : ascii :=
  let n := nat_of_ascii c in
  if ((97 <=? n) && (n <=? 122))%nat then ascii_of_nat (n - 32) else c.

Fixpoint ascii_upper (s : string) : string :=
  match s with
  | String c s' => String (upper_char c) (ascii_upper s')
  | EmptyString => EmptyString
  end.

(** ** Notions of the specification *)

(** The smoothed probability of [s] in the words of the specification:
    (prior[s] + count of s in the window) / (sum of priors + window length). *)
Definition smoothed_probability {F : Type} {A : Arith F}
    (prior : Py.dict F) (window : list string) (s : string) : option F :=
  a ← Py.get prior s;
  Some (fquot (fadd a (of_int (Z.of_nat (count_occ String.string_dec window s))))
              (fadd (fsum (Py.values prior)) (of_int (Py.len window)))).

(** [pick] is the first key of [post], in the order of its entries, that has
    the highest value: no value is above its own, and the values of the
    entries before it are strictly below. *)
Definition first_max {F : Type} (le lt : F → F → bool)
    (post : Py.dict F) (pick : string) : Prop :=
  ∃ (i : nat) (p : F),
    post !! i = Some (pick, p)
    ∧ (∀ j k q, post !! j = Some (k, q) → le q p = true)
    ∧ (∀ j k q, (j < i)%nat → post !! j = Some (k, q) → lt q p = true).

(** ** Checks by enumeration

    Binary64 has no algebraic laws to reason with, but a window has at most
    [PRED_WINDOW] items, so the counts that reach the arithmetic are finitely
    many and the properties of its results are checked on all of them. *)

Definition first_maxb {F : Type} (le lt : F → F → bool)
    (post : Py.dict F) (pick : string) : bool :=
  existsb
    (λ i, match post !! i with
          | Some (k, p) =>
              String.eqb k pick
              && forallb (λ e, le e.2 p) post
              && forallb (λ e, lt e.2 p) (take i post)
          | None => false
          end)
    (seq 0 (length post)).

(** The posterior and the pick of [next_prediction] for given counts. *)
Definition prediction_of_counts {F : Type} {A : Arith F} (cP cB cT : Z)
  : result (Py.dict F * string) :=
  post ← dirichlet_posterior_mean [("P", cP); ("B", cB); ("T", cT)]
           (Some default_alpha);
  pick_key ← max_by_key (Py.keys post) (Py.get post);
  Ok (post, pick_key).

Definition pick_check {F : Type} {A : Arith F} (le lt : F → F → bool)
    (cP cB cT : nat) : bool :=
  match prediction_of_counts (Z.of_nat cP) (Z.of_nat cB) (Z.of_nat cT) with
  | Ok (post, pick) => first_maxb le lt post pick
  | Raise _ => false
  end.

(** The denominator [sum(alpha.values()) + total] is not zero. *)
Definition denom_check {F : Type} {A : Arith F} (total : nat) : bool :=
  negb (fis_zero (fadd (fsum (Py.values default_alpha))
                       (of_int (Z.of_nat total)))).

(** The three binary64 probabilities sum to 1.0 up to one unit in the last
    place. *)
Definition sum_check (cP cB cT : nat) : bool :=
  match dirichlet_posterior_mean (A:=binary64)
          [("P", Z.of_nat cP); ("B", Z.of_nat cB); ("T", Z.of_nat cT)] None with
  | Ok post =>
      PrimFloat.leb
        (PrimFloat.abs (fsum (A:=binary64) (Py.values post) - 1)%float)
        0x1p-52%float
  | Raise _ => false
  end.

(** [f] holds for all counts whose total is below [n]. *)
Definition all_counts (n : nat) (f : nat → nat → nat → bool) : bool :=
  forallb (λ a, forallb (λ b, forallb (f a b) (seq 0 (n - a - b)))
                  (seq 0 (n - a)))
          (seq 0 n).

(** ** Further notions

    Definitions for the properties of the handlers beyond prediction. *)

(** [k] undos in a row on one chat. *)
Fixpoint undos {F : Type} (chat_id : Z) (k : nat) (USER : gmap Z UserState)
  : gmap Z UserState :=
  match k with
  | O => USER
  | S k' => undos (F:=F) chat_id k' (do_undo (F:=F) chat_id USER).1
  end.

(** [last_added], when it is set, is the newest item of the history. *)
Definition last_added_ok (st : UserState) : Prop :=
  ∀ r, last_added st = Some r → last (Py.items (history st)) = Some r.

(** The divisor [n] of the percentages of [send_stats] is not zero. *)
Definition stats_denom_check {F : Type} {A : Arith F} (n : nat) : bool :=
  negb (fis_zero (of_int (Z.of_nat n))).

(** The binary64 pick for given counts is the first key with the highest
    count. *)
Definition count_pick_check (cP cB cT : nat) : bool :=
  match prediction_of_counts (A:=binary64)
          (Z.of_nat cP) (Z.of_nat cB) (Z.of_nat cT) with
  | Ok (_, pick) =>
      first_maxb Z.leb Z.ltb
        [("P", Z.of_nat cP); ("B", Z.of_nat cB); ("T", Z.of_nat cT)] pick
  | Raise _ => false
  end.

(** The ints that binary64 represents exactly, so that converting them to
    float neither rounds nor overflows. *)
Definition int_exact (z : Z) : Prop := Z.abs z ≤ 2 ^ 53.

(** [f] holds at [z], [z + 1], ..., [z + k - 1]; its first argument counts
    how many of these ints come after the current one. *)
Fixpoint all_upto (k : nat) (z : Z) (f : nat → Z → bool) : bool :=
  match k with
  | O => true
  | S k' => f k' z && all_upto k' (z + 1) f
  end.

(** [f] holds for all counts, as ints, whose total is below [n]. *)
Definition all_counts_Z (n : nat) (f : Z → Z → Z → bool) : bool :=
  all_upto n 0
    (λ r1 a, all_upto (S r1) 0
               (λ r2 b, all_upto (S r2) 0 (λ _ c, f a b c))).

(** The three binary64 percentages of [send_stats] for given counts sum to
    100 up to 2^-45. *)
Definition pct_sum_check (cP cB cT : Z) : bool :=
  let n := cP + cB + cT in
  (n =? 0)
  || PrimFloat.leb
       (PrimFloat.abs
          (fsum (A:=binary64)
             [(float_of_Z cP / float_of_Z n * float_of_Z 100)%float;
              (float_of_Z cB / float_of_Z n * float_of_Z 100)%float;
              (float_of_Z cT / float_of_Z n * float_of_Z 100)%float]
           - 100)%float)
       0x1p-45%float.

(** The binary64 probabilities for given counts lie strictly between 0 and
    1 and are ordered as the counts are. *)
Definition between_check (cP cB cT : nat) : bool :=
  let cs := [("P", Z.of_nat cP); ("B", Z.of_nat cB); ("T", Z.of_nat cT)] in
  match dirichlet_posterior_mean (A:=binary64) cs None with
  | Ok post =>
      forallb (λ e, PrimFloat.ltb 0 e.2 && PrimFloat.ltb e.2 1) post
      && forallb
           (λ e1, forallb
                    (λ e2, Bool.eqb (PrimFloat.leb e1.2 e2.2)
                             (Py.get_default cs e1.1 0
                              <=? Py.get_default cs e2.1 0))
                    post)
           post
  | Raise _ => false
  end.

(** * Properties *)

(** ** Containers *)

Lemma sum_fold_shift (xs : list Z) (a : Z) :
  fold_left Z.add xs a = a + Py.sum xs.
Proof.
  unfold Py.sum. revert a.
  induction xs as [|x xs IH]; intros a; simpl; [lia|].
  rewrite (IH (a + x)), (IH (0 + x)). lia.
Qed.

Lemma sum_cons (x : Z) (xs : list Z) : Py.sum (x :: xs) = x + Py.sum xs.
Proof. unfold Py.sum at 1. simpl. apply sum_fold_shift. Qed.

Lemma sum_ones {A} (l : list A) : Py.sum ((λ _, 1) <$> l) = Py.len l.
Proof.
  unfold Py.len.
  induction l as [|x l IH]; [reflexivity|].
  rewrite fmap_cons, sum_cons, IH. simpl length. lia.
Qed.

Lemma getitem_last {A} (l : list A) (x : A) : Py.getitem (l ++ [x]) (-1) = Ok x.
Proof.
  unfold Py.getitem, Py.len. rewrite length_app. simpl.
  replace (Z.of_nat (length l + 1) + -1) with (Z.of_nat (length l)) by lia.
  destruct (Z.ltb_spec (Z.of_nat (length l)) 0) as [?|_]; [lia|].
  rewrite Nat2Z.id, lookup_app_r by lia.
  rewrite Nat.sub_diag. reflexivity.
Qed.

Lemma getitem_nat {A} (l : list A) (i : nat) (x : A) :
  l !! i = Some x → Py.getitem l (Z.of_nat i) = Ok x.
Proof.
  intros Hi. unfold Py.getitem. cbv zeta.
  destruct (Z.ltb_spec (Z.of_nat i) 0) as [?|_]; [lia|].
  destruct (Z.ltb_spec (Z.of_nat i) 0) as [?|_]; [lia|].
  by rewrite Nat2Z.id, Hi.
Qed.

(** ** counts_from *)

Lemma count_eq_occ (k : string) (seq : list string) :
  count_eq k seq = Z.of_nat (count_occ String.string_dec seq k).
Proof.
  unfold count_eq. rewrite sum_ones. unfold Py.len. f_equal.
  induction seq as [|x seq IH]; [reflexivity|].
  simpl. destruct (String.eqb_spec x k) as [->|Hne].
  - destruct (String.string_dec k k); [|congruence]. simpl. by rewrite IH.
  - destruct (String.string_dec x k); [congruence|]. exact IH.
Qed.

Lemma count_occ_symbols (seq : list string) :
  Forall is_symbol seq →
  (count_occ String.string_dec seq "P" + count_occ String.string_dec seq "B"
   + count_occ String.string_dec seq "T")%nat = length seq.
Proof.
  induction 1 as [|x seq Hx _ IH]; [reflexivity|].
  unfold is_symbol, SYMBOLS in Hx.
  rewrite !elem_of_cons, elem_of_nil in Hx.
  destruct Hx as [->|[->|[->|[]]]]; simpl; lia.
Qed.

(** C8: on a sequence of results, [counts_from] has the three keys P, B, T in
    this order, maps each to its exact number of occurrences, maps a result
    that does not occur to 0, and its values sum to the length of the
    sequence. *)
Theorem counts_from_exact (seq : list string) :
  Forall is_symbol seq →
  Py.keys (counts_from seq) = SYMBOLS
  ∧ (∀ s, s ∈ SYMBOLS →
       Py.get (counts_from seq) s = Some (Z.of_nat (count_occ String.string_dec seq s)))
  ∧ (∀ s, s ∈ SYMBOLS → s ∉ seq → Py.get (counts_from seq) s = Some 0)
  ∧ Py.sum (Py.values (counts_from seq)) = Py.len seq.
Proof.
  intros Hseq.
  assert (Hget : ∀ s, s ∈ SYMBOLS →
            Py.get (counts_from seq) s
            = Some (Z.of_nat (count_occ String.string_dec seq s))).
  { intros s Hs. unfold SYMBOLS in Hs.
    rewrite !elem_of_cons, elem_of_nil in Hs.
    destruct Hs as [->|[->|[->|[]]]]; simpl; by rewrite count_eq_occ. }
  split; [reflexivity|]. split; [exact Hget|]. split.
  - intros s Hs Hnot. rewrite (Hget s Hs).
    rewrite (proj1 (count_occ_not_In String.string_dec seq s)); [reflexivity|].
    by rewrite <- list_elem_of_In.
  - unfold counts_from, Py.values. simpl.
    rewrite !sum_cons, !count_eq_occ. unfold Py.sum, Py.len. simpl.
    pose proof (count_occ_symbols seq Hseq). lia.
Qed.

Lemma counts_from_exact_witness :
  let seq := ["P"; "B"; "B"; "T"; "P"; "B"] in
  Forall is_symbol seq
  ∧ Py.get (counts_from seq) "B" = Some 3
  ∧ Py.sum (Py.values (counts_from seq)) = 6.
Proof.
  assert (H : Forall is_symbol ["P"; "B"; "B"; "T"; "P"; "B"]).
  { unfold is_symbol, SYMBOLS. by repeat constructor. }
  split; [exact H|].
  destruct (counts_from_exact _ H) as (_ & Hget & _ & Hsum).
  split; [|exact Hsum].
  apply (Hget "B"). unfold SYMBOLS. by repeat constructor.
Defined.

(** ** streak *)

(** Every sequence ends in a maximal run of [x], which may be empty. *)
Lemma tail_run_exists (x : string) (l : list string) :
  ∃ pre n, l = pre ++ replicate n x ∧ last pre ≠ Some x.
Proof.
  induction l as [|y l IH] using rev_ind.
  - exists [], 0%nat. by split.
  - destruct (decide (y = x)) as [->|Hne].
    + destruct IH as (pre & n & -> & Hpre).
      exists pre, (S n). split; [|exact Hpre].
      by rewrite replicate_S_end, app_assoc.
    + exists (l ++ [y]), 0%nat. split.
      * by rewrite app_nil_r.
      * rewrite last_snoc. congruence.
Qed.

(** The loop counts the whole run and stops at the first other element. *)
Lemma streak_loop_run (pre suf : list string) (x : string) (n : nat) (s : Z) :
  last pre ≠ Some x →
  streak_loop (pre ++ replicate n x ++ suf) x (length pre + n) s
  = Ok (s + Z.of_nat n).
Proof.
  intros Hpre. revert s suf.
  induction n as [|n IH]; intros s suf.
  - rewrite Nat.add_0_r, Z.add_0_r. simpl replicate. simpl app.
    destruct pre as [|y pre _] using rev_ind; [reflexivity|].
    rewrite last_snoc in Hpre.
    rewrite length_app, Nat.add_1_r. simpl.
    rewrite (getitem_nat _ _ y).
    + simpl. destruct (String.eqb_spec y x); [congruence|reflexivity].
    + rewrite <- app_assoc, lookup_app_r by lia.
      by rewrite Nat.sub_diag.
  - rewrite Nat.add_succ_r, replicate_S_end, <- app_assoc.
    change (streak_loop ?h x (S ?k) s)
      with (y ← Py.getitem h (Z.of_nat k);
            if String.eqb y x then streak_loop h x k (s + 1) else Ok s).
    rewrite (getitem_nat _ _ x).
    + simpl mbind. rewrite String.eqb_refl, IH. f_equal. lia.
    + rewrite lookup_app_r by lia.
      rewrite lookup_app_r by (rewrite length_replicate; lia).
      rewrite length_replicate.
      by replace (length pre + n - length pre - n)%nat with 0%nat by lia.
Qed.

(** C5: [streak] of the empty history is (None, 0); of a history that is not
    empty it is the last element with the length of the maximal run of that
    element at the tail, which counts the last element and so is at least 1;
    [P,B,B,B] gives (B, 3). *)
Theorem streak_tail_run :
  (∀ maxlen, streak (Py.Deque [] maxlen) = Ok (None, 0))
  ∧ (∀ history : Py.deque,
       Py.items history ≠ [] →
       ∃ (pre : list string) (x : string) (n : nat),
         Py.items history = pre ++ replicate n x
         ∧ last (Py.items history) = Some x
         ∧ last pre ≠ Some x
         ∧ (1 ≤ n)%nat
         ∧ streak history = Ok (Some x, Z.of_nat n))
  ∧ streak (Py.Deque ["P"; "B"; "B"; "B"] (Some MAX_HISTORY)) = Ok (Some "B", 3).
Proof.
  split; [reflexivity|]. split; [|reflexivity].
  intros [l ml] Hne. simpl in Hne |- *.
  destruct l as [|x l _] using rev_ind; [done|]. clear Hne.
  destruct (tail_run_exists x l) as (pre & n & -> & Hpre).
  exists pre, x, (S n).
  split; [by rewrite replicate_S_end, app_assoc|].
  split; [apply last_snoc|]. split; [exact Hpre|]. split; [lia|].
  unfold streak, Py.truth. simpl Py.items.
  destruct ((pre ++ replicate n x) ++ [x]) eqn:E.
  { by apply app_eq_nil in E as [_ ?]. }
  rewrite <- E. simpl negb. cbv iota.
  rewrite getitem_last. simpl mbind.
  unfold Py.len. rewrite !length_app, length_replicate. simpl length.
  replace (Z.to_nat (Z.of_nat (length pre + n + 1) - 2 + 1))
    with (length pre + n)%nat by lia.
  rewrite <- app_assoc, streak_loop_run by exact Hpre.
  simpl. do 2 f_equal. lia.
Qed.

Lemma streak_tail_run_witness :
  Py.items (Py.Deque ["T"; "P"; "P"] (Some MAX_HISTORY)) ≠ []
  ∧ ∃ (pre : list string) (x : string) (n : nat),
      ["T"; "P"; "P"] = pre ++ replicate n x
      ∧ streak (Py.Deque ["T"; "P"; "P"] (Some MAX_HISTORY))
        = Ok (Some x, Z.of_nat n).
Proof.
  assert (H : Py.items (Py.Deque ["T"; "P"; "P"] (Some MAX_HISTORY)) ≠ []).
  { simpl. discriminate. }
  split; [exact H|].
  destruct (proj1 (proj2 streak_tail_run) _ H)
    as (pre & x & n & Hitems & _ & _ & _ & Hstreak).
  exists pre, x, n. split; [exact Hitems | exact Hstreak].
Defined.

(** ** Sessions *)

Lemma fresh_state_ok :
  state_ok {| history := Py.deque_new (Some MAX_HISTORY); last_added := None |}.
Proof. repeat split; simpl; [unfold MAX_HISTORY; lia | constructor]. Qed.

Lemma get_state_stored (chat_id : Z) (USER : gmap Z UserState) :
  (get_state chat_id USER).1 !! chat_id = Some (get_state chat_id USER).2.
Proof.
  unfold get_state. destruct (USER !! chat_id) eqn:E; simpl; [exact E|].
  apply lookup_insert_eq.
Qed.

Lemma get_state_ok (chat_id : Z) (USER : gmap Z UserState) :
  store_ok USER →
  store_ok (get_state chat_id USER).1 ∧ state_ok (get_state chat_id USER).2.
Proof.
  intros Hok. unfold get_state. destruct (USER !! chat_id) eqn:E; simpl.
  - split; [exact Hok | exact (Hok _ _ E)].
  - split; [|exact fresh_state_ok].
    apply map_Forall_insert_2; [exact fresh_state_ok | exact Hok].
Qed.

Lemma session_stored (chat_id : Z) (st : UserState) (USER : gmap Z UserState) :
  session (<[chat_id := st]> USER) chat_id = st.
Proof. unfold session, get_state. by rewrite lookup_insert_eq. Qed.

Lemma session_get_state (chat_id : Z) (USER : gmap Z UserState) :
  session (get_state chat_id USER).1 chat_id = session USER chat_id.
Proof.
  unfold session at 1. unfold get_state at 1.
  by rewrite get_state_stored.
Qed.

Lemma session_ok (chat_id : Z) (USER : gmap Z UserState) :
  store_ok USER → state_ok (session USER chat_id).
Proof. intros Hok. by apply get_state_ok. Qed.

(** ** The deque *)

(** Appending to a bounded deque keeps the newest [MAX_HISTORY] items. *)
Lemma append_items (x : string) (d : Py.deque) :
  Py.maxlen d = Some MAX_HISTORY →
  (length (Py.items d) ≤ MAX_HISTORY)%nat →
  Py.items (Py.append x d)
  = drop (length (Py.items d ++ [x]) - MAX_HISTORY) (Py.items d ++ [x])
  ∧ Py.maxlen (Py.append x d) = Some MAX_HISTORY.
Proof.
  intros Hm Hlen. unfold Py.append. rewrite Hm.
  destruct (Nat.ltb_spec MAX_HISTORY (length (Py.items d ++ [x]))) as [Hlt|Hge];
    simpl; (split; [|reflexivity]).
  - rewrite length_app in Hlt |- *. simpl in Hlt |- *.
    replace (length (Py.items d) + 1 - MAX_HISTORY)%nat with 1%nat by lia.
    by destruct (Py.items d ++ [x]).
  - by replace (length (Py.items d ++ [x]) - MAX_HISTORY)%nat with 0%nat by lia.
Qed.

Lemma append_room (x : string) (d : Py.deque) :
  Py.maxlen d = Some MAX_HISTORY →
  (length (Py.items d) < MAX_HISTORY)%nat →
  Py.append x d = Py.Deque (Py.items d ++ [x]) (Py.maxlen d).
Proof.
  intros Hm Hlen. unfold Py.append. rewrite Hm.
  destruct (Nat.ltb_spec MAX_HISTORY (length (Py.items d ++ [x]))) as [Hlt|_];
    [|reflexivity].
  rewrite length_app in Hlt. simpl in Hlt. lia.
Qed.

Lemma pop_snoc (l : list string) (x : string) (m : option nat) :
  Py.pop (Py.Deque (l ++ [x]) m) = Ok (x, Py.Deque l m).
Proof. unfold Py.pop. simpl. by rewrite last_snoc, removelast_last. Qed.

Lemma append_ok (x : string) (st : UserState) (la : option string) :
  is_symbol x → state_ok st →
  state_ok {| history := Py.append x (history st); last_added := la |}.
Proof.
  intros Hx (Hm & Hlen & Hsym).
  destruct (append_items x _ Hm Hlen) as [Hitems Hm'].
  unfold state_ok. simpl. rewrite Hitems.
  split; [exact Hm'|]. split.
  - rewrite length_drop. lia.
  - apply Forall_drop, Forall_app. split; [exact Hsym|]. by constructor.
Qed.

Lemma pop_ok (st : UserState) (x : string) (d : Py.deque) (la : option string) :
  state_ok st → Py.pop (history st) = Ok (x, d) →
  state_ok {| history := d; last_added := la |}.
Proof.
  intros (Hm & Hlen & Hsym). unfold Py.pop.
  destruct (Py.items (history st)) as [|y l _] eqn:E using rev_ind; [done|].
  rewrite last_snoc, removelast_last. intros [= <- <-].
  unfold state_ok. simpl. split; [exact Hm|].
  rewrite length_app in Hlen. apply Forall_app in Hsym as [Hsym _].
  split; [lia | exact Hsym].
Qed.

(** ** The handlers keep the store well formed *)

Section HandlerFacts.

Context {F : Type} {A : Arith F}.
Variables (str_strip str_upper : string → string).

Lemma handle_add_store (chat_id : Z) (r : string) (USER : gmap Z UserState) :
  (handle_add (F:=F) chat_id r USER).1
  = <[chat_id := {| history := Py.append r (history (session USER chat_id));
                    last_added := Some r |}]> (get_state chat_id USER).1.
Proof.
  unfold handle_add, session.
  by destruct (get_state chat_id USER) as [U st].
Qed.

Lemma handle_add_session (chat_id : Z) (r : string) (USER : gmap Z UserState) :
  session (handle_add (F:=F) chat_id r USER).1 chat_id
  = {| history := Py.append r (history (session USER chat_id));
       last_added := Some r |}.
Proof. by rewrite handle_add_store, session_stored. Qed.

Lemma send_stats_store (chat_id : Z) (USER : gmap Z UserState) :
  (send_stats (F:=F) chat_id USER).1 = (get_state chat_id USER).1.
Proof.
  unfold send_stats. destruct (get_state chat_id USER) as [U st].
  by destruct (Py.len (Py.items (history st)) =? 0).
Qed.

Lemma next_prediction_store (chat_id : Z) (USER : gmap Z UserState) :
  (next_prediction (F:=F) chat_id USER).1 = (get_state chat_id USER).1.
Proof.
  unfold next_prediction. destruct (get_state chat_id USER) as [U st].
  by destruct (Py.len (Py.items (history st)) <? MIN_FOR_PRED).
Qed.

Lemma handle_add_ok (chat_id : Z) (r : string) (USER : gmap Z UserState) :
  is_symbol r → store_ok USER → store_ok (handle_add (F:=F) chat_id r USER).1.
Proof.
  intros Hr Hok. rewrite handle_add_store.
  destruct (get_state_ok chat_id USER Hok) as [HU Hst].
  apply map_Forall_insert_2; [|exact HU].
  by apply append_ok.
Qed.

Lemma do_undo_ok (chat_id : Z) (USER : gmap Z UserState) :
  store_ok USER → store_ok (do_undo (F:=F) chat_id USER).1.
Proof.
  intros Hok. unfold do_undo.
  pose proof (get_state_ok chat_id USER Hok) as [HU Hst].
  destruct (get_state chat_id USER) as [U st]. simpl in HU, Hst.
  destruct (negb (Py.truth (history st))); [exact HU|].
  destruct (Py.pop (history st)) as [[removed h]|e] eqn:E; [|exact HU].
  apply map_Forall_insert_2; [|exact HU].
  by apply (pop_ok st removed).
Qed.

Lemma do_reset_ok (chat_id : Z) (USER : gmap Z UserState) :
  store_ok USER → store_ok (do_reset (F:=F) chat_id USER).1.
Proof.
  intros Hok. unfold do_reset.
  pose proof (get_state_ok chat_id USER Hok) as [HU Hst].
  destruct (get_state chat_id USER) as [U st]. simpl in HU, Hst |- *.
  apply map_Forall_insert_2; [|exact HU].
  destruct Hst as (Hm & _ & _).
  repeat split; simpl; [exact Hm | unfold MAX_HISTORY; lia | constructor].
Qed.

Lemma normalize_result_symbol (text r : string) :
  normalize_result str_strip str_upper text = Some r → is_symbol r.
Proof.
  unfold normalize_result, is_symbol, SYMBOLS.
  repeat case_match; intros [= <-]; set_solver.
Qed.

Lemma handle_ok (chat_id : Z) (m_text : option string) (USER : gmap Z UserState) :
  store_ok USER →
  store_ok (handle (F:=F) str_strip str_upper chat_id m_text USER).1.
Proof.
  intros Hok. unfold handle.
  assert (Hrest : ∀ text,
    store_ok
      (match normalize_result str_strip str_upper text with
       | Some r => if falsy (Some r) then (USER, Ok MsgUnrecognized)
                   else handle_add (F:=F) chat_id r USER
       | None => (USER, Ok MsgUnrecognized)
       end).1).
  { intros text.
    destruct (normalize_result str_strip str_upper text) as [r|] eqn:E;
      [|exact Hok].
    destruct (falsy (Some r)); [exact Hok|].
    apply handle_add_ok; [|exact Hok].
    by apply (normalize_result_symbol text). }
  cbv beta zeta.
  generalize (str_strip (if falsy m_text then "" else default "" m_text)).
  intros text.
  do 3 (destruct (String.eqb text _); [apply Hrest|]).
  destruct (String.eqb text _); [by apply do_reset_ok|].
  destruct (String.eqb text _);
    [rewrite next_prediction_store; by apply get_state_ok|].
  destruct (String.eqb text _);
    [rewrite send_stats_store; by apply get_state_ok|].
  destruct (String.eqb text _); [by apply do_undo_ok|].
  destruct (String.eqb text _); [exact Hok|].
  apply Hrest.
Qed.

Lemma dispatch_ok (chat_id : Z) (u : update) (USER : gmap Z UserState) :
  store_ok USER →
  store_ok (dispatch (F:=F) str_strip str_upper chat_id u USER).1.
Proof.
  intros Hok. destruct u; simpl.
  - exact Hok.
  - rewrite send_stats_store. by apply get_state_ok.
  - by apply do_reset_ok.
  - by apply do_undo_ok.
  - rewrite next_prediction_store. by apply get_state_ok.
  - by apply handle_ok.
Qed.

(** Every store the bot can reach from the empty [USER] is well formed. *)
Lemma run_ok (us : list (Z * update)) (USER : gmap Z UserState) :
  store_ok USER → store_ok (run (F:=F) str_strip str_upper us USER).
Proof.
  revert USER. induction us as [|[chat_id u] us IH]; intros USER Hok;
    [exact Hok|].
  apply IH. by apply dispatch_ok.
Qed.

Lemma reachable_ok (us : list (Z * update)) :
  store_ok (run (F:=F) str_strip str_upper us ∅).
Proof. apply run_ok, map_Forall_empty. Qed.

End HandlerFacts.

(** ** Appending and undoing *)

Section SessionLaws.

Context {F : Type} {A : Arith F}.
Variables (str_strip str_upper : string → string).

Lemma session_items_nil_fresh (chat_id : Z) (USER : gmap Z UserState) :
  USER !! chat_id = None → session_items USER chat_id = [].
Proof. intros E. unfold session_items, session, get_state. by rewrite E. Qed.

Lemma get_state_known (chat_id : Z) (USER : gmap Z UserState) :
  session_items USER chat_id ≠ [] →
  get_state chat_id USER = (USER, session USER chat_id).
Proof.
  intros Hne. destruct (USER !! chat_id) as [st|] eqn:E.
  - unfold session, get_state. by rewrite E.
  - by apply session_items_nil_fresh in E.
Qed.

Lemma do_undo_nonempty (chat_id : Z) (USER : gmap Z UserState)
    (l : list string) (x : string) :
  session_items USER chat_id = l ++ [x] →
  do_undo (F:=F) chat_id USER
  = (<[chat_id := {| history := Py.Deque l
                       (Py.maxlen (history (session USER chat_id)));
                     last_added := None |}]> USER,
     Ok (MsgUndo x)).
Proof.
  intros Hitems. unfold do_undo.
  rewrite get_state_known by (rewrite Hitems; by destruct l).
  unfold session_items in Hitems.
  destruct (history (session USER chat_id)) as [its m]. simpl in Hitems.
  subst its. rewrite pop_snoc. unfold Py.truth. simpl.
  by destruct (l ++ [x]) eqn:E; [apply app_eq_nil in E as [_ ?]|].
Qed.

Lemma do_undo_empty (chat_id : Z) (USER : gmap Z UserState) :
  session_items USER chat_id = [] →
  do_undo (F:=F) chat_id USER
  = ((get_state chat_id USER).1, Ok MsgNothingToUndo).
Proof.
  unfold session_items, session, do_undo.
  destruct (get_state chat_id USER) as [U st]. simpl. intros Hitems.
  unfold Py.truth. by rewrite Hitems.
Qed.

Lemma appends_items (chat_id : Z) (rs : list string) (USER : gmap Z UserState) :
  store_ok USER → Forall is_symbol rs →
  store_ok (appends (F:=F) chat_id rs USER)
  ∧ session_items (appends (F:=F) chat_id rs USER) chat_id
    = drop (length (session_items USER chat_id ++ rs) - MAX_HISTORY)
           (session_items USER chat_id ++ rs).
Proof.
  intros Hok Hrs. revert USER Hok.
  induction Hrs as [|r rs Hr _ IH]; intros USER Hok.
  - split; [exact Hok|]. simpl. rewrite app_nil_r.
    destruct (session_ok chat_id USER Hok) as (_ & Hlen & _).
    unfold session_items.
    by replace (length (Py.items (history (session USER chat_id)))
                - MAX_HISTORY)%nat with 0%nat by lia.
  - change (appends (F:=F) chat_id (r :: rs) USER)
      with (appends (F:=F) chat_id rs (handle_add (F:=F) chat_id r USER).1).
    destruct (IH _ (handle_add_ok (F:=F) chat_id r USER Hr Hok)) as [Hok' Hitems].
    split; [exact Hok'|]. rewrite Hitems.
    unfold session_items at 1 2. rewrite handle_add_session. simpl.
    destruct (session_ok chat_id USER Hok) as (Hm & Hlen & _).
    destruct (append_items r _ Hm Hlen) as [-> _].
    fold (session_items USER chat_id).
    fold (session_items USER chat_id) in Hlen.
    set (old := session_items USER chat_id) in *.
    rewrite <- drop_app_le by (rewrite length_app; simpl; lia).
    rewrite drop_drop, <- (app_assoc old [r] rs). simpl.
    f_equal. rewrite length_drop, !length_app. simpl. lia.
Qed.

(** C2: in every store the bot can reach, and after any further results
    are appended to a chat, no history is longer than MAX_HISTORY = 300, and
    the history of that chat is the newest 300 of the old items followed by
    the appended ones: the oldest are evicted first.  In particular, 301
    results appended to an empty history leave the last 300 of them, in
    order, without the first. *)
Theorem history_bounded_fifo
    (us : list (Z * update)) (chat_id : Z) (rs : list string) :
  Forall is_symbol rs →
  let USER := run (F:=F) str_strip str_upper us ∅ in
  let USER' := appends (F:=F) chat_id rs USER in
  let all := session_items USER chat_id ++ rs in
  (∀ chat', (length (session_items USER' chat') ≤ MAX_HISTORY)%nat)
  ∧ MAX_HISTORY = 300%nat
  ∧ session_items USER' chat_id = drop (length all - MAX_HISTORY) all
  ∧ (session_items USER chat_id = [] → length rs = 301%nat →
     session_items USER' chat_id = tail rs
     ∧ length (session_items USER' chat_id) = 300%nat).
Proof.
  intros Hrs USER USER' all.
  destruct (appends_items chat_id rs USER
              (reachable_ok str_strip str_upper us) Hrs) as [Hok Hitems].
  fold USER' in Hok, Hitems. fold all in Hitems.
  split; [|split; [reflexivity|split; [exact Hitems|]]].
  - intros chat'. by destruct (session_ok chat' USER' Hok) as (_ & Hlen & _).
  - intros Hold Hlen. rewrite Hitems. unfold all. rewrite Hold. simpl.
    rewrite Hlen. change (301 - MAX_HISTORY)%nat with 1%nat.
    split; [by destruct rs|].
    rewrite length_drop. lia.
Qed.

(** C7: when the history of a chat has room, undoing right after adding [s]
    gives back exactly the history from before, one item shorter than the
    history with [s], and the reply reports [s] as removed; on an empty
    history the reply is the separate message that nothing can be undone,
    and the history stays empty. *)
Theorem undo_after_append (us : list (Z * update)) (chat_id : Z) (s : string) :
  let USER := run (F:=F) str_strip str_upper us ∅ in
  let h := history (session USER chat_id) in
  let USER1 := (handle_add (F:=F) chat_id s USER).1 in
  let USER2 := (do_undo (F:=F) chat_id USER1).1 in
  ((length (Py.items h) < MAX_HISTORY)%nat →
     history (session USER2 chat_id) = h
     ∧ length (session_items USER1 chat_id) = S (length (Py.items h))
     ∧ length (session_items USER2 chat_id)
       = (length (session_items USER1 chat_id) - 1)%nat
     ∧ (do_undo (F:=F) chat_id USER1).2 = Ok (MsgUndo s))
  ∧ (Py.items h = [] →
     (do_undo (F:=F) chat_id USER).2 = Ok MsgNothingToUndo
     ∧ session_items (do_undo (F:=F) chat_id USER).1 chat_id = []
     ∧ ∀ removed, @MsgNothingToUndo F ≠ MsgUndo removed).
Proof.
  intros USER h USER1 USER2.
  pose proof (reachable_ok (F:=F) str_strip str_upper us) as Hok.
  fold USER in Hok. split.
  - intros Hroom.
    destruct (session_ok chat_id USER Hok) as (Hm & _ & _). fold h in Hm.
    assert (H1 : session USER1 chat_id
                 = {| history := Py.Deque (Py.items h ++ [s]) (Py.maxlen h);
                      last_added := Some s |}).
    { unfold USER1. rewrite handle_add_session. fold h.
      by rewrite (append_room s h Hm Hroom). }
    assert (Hitems1 : session_items USER1 chat_id = Py.items h ++ [s]).
    { unfold session_items. by rewrite H1. }
    pose proof (do_undo_nonempty chat_id USER1 _ _ Hitems1) as Hundo.
    rewrite H1 in Hundo. simpl in Hundo.
    unfold USER2. rewrite Hundo. simpl.
    unfold session_items at 2. rewrite session_stored, Hitems1. simpl.
    rewrite length_app. simpl.
    repeat split; [by destruct h | lia | lia].
  - intros Hempty.
    rewrite (do_undo_empty chat_id USER Hempty). simpl.
    split; [reflexivity|]. split; [|discriminate].
    unfold session_items. by rewrite session_get_state.
Qed.

(** C9, as the code has it: on a history that is not empty, [do_undo]
    replaces the session by one whose history has lost its newest item and
    kept its bound, and whose [last_added] is None; the reply reports the
    removed item, and every other session is unchanged. *)
Theorem do_undo_effect (chat_id : Z) (USER : gmap Z UserState) :
  session_items USER chat_id ≠ [] →
  ∃ (l : list string) (x : string),
    session_items USER chat_id = l ++ [x]
    ∧ (do_undo (F:=F) chat_id USER).2 = Ok (MsgUndo x)
    ∧ session (do_undo (F:=F) chat_id USER).1 chat_id
      = {| history := Py.Deque l (Py.maxlen (history (session USER chat_id)));
           last_added := None |}
    ∧ ∀ chat', chat' ≠ chat_id →
        (do_undo (F:=F) chat_id USER).1 !! chat' = USER !! chat'.
Proof.
  intros Hne.
  destruct (session_items USER chat_id) as [|x l _] eqn:E using rev_ind;
    [done|].
  exists l, x. rewrite (do_undo_nonempty chat_id USER l x E). simpl.
  split; [reflexivity|]. split; [reflexivity|].
  split; [apply session_stored|].
  intros chat' Hc. by apply lookup_insert_ne.
Qed.

End SessionLaws.

(** ** Every bounded history of results is reached

    With [str.strip] and [str.upper] as they are on ASCII text, sending the
    results one by one builds any history of at most [MAX_HISTORY] items. *)

Section Reachable.

Context {F : Type} {A : Arith F}.

Lemma dispatch_symbol (chat_id : Z) (r : string) (USER : gmap Z UserState) :
  is_symbol r →
  dispatch (A:=A) ascii_strip ascii_upper chat_id (Other (Some r)) USER
  = handle_add chat_id r USER.
Proof.
  unfold is_symbol, SYMBOLS. rewrite !elem_of_cons, elem_of_nil.
  by intros [->|[->|[->|[]]]].
Qed.

Lemma run_appends (chat_id : Z) (rs : list string) (USER : gmap Z UserState) :
  Forall is_symbol rs →
  run (A:=A) ascii_strip ascii_upper
      ((λ r, (chat_id, Other (Some r))) <$> rs) USER
  = appends (F:=F) chat_id rs USER.
Proof.
  intros Hrs. revert USER.
  induction Hrs as [|r rs Hr _ IH]; intros USER; [reflexivity|].
  rewrite fmap_cons.
  change (run (A:=A) ascii_strip ascii_upper (?u :: ?us) USER)
    with (run (A:=A) ascii_strip ascii_upper us
            (dispatch (A:=A) ascii_strip ascii_upper u.1 u.2 USER).1).
  change (dispatch (A:=A) ascii_strip ascii_upper ?c.1 ?c.2 USER)
    with (dispatch (A:=A) ascii_strip ascii_upper chat_id (Other (Some r))
            USER).
  rewrite (dispatch_symbol chat_id r USER Hr), IH. reflexivity.
Qed.

Lemma every_history_reachable (chat_id : Z) (l : list string) :
  Forall is_symbol l → (length l ≤ MAX_HISTORY)%nat →
  session_items
    (run (A:=A) ascii_strip ascii_upper
         ((λ r, (chat_id, Other (Some r))) <$> l) ∅)
    chat_id
  = l.
Proof.
  intros Hl Hlen. rewrite (run_appends chat_id l ∅ Hl).
  destruct (appends_items (F:=F) chat_id l ∅ (map_Forall_empty _) Hl)
    as [_ ->].
  change (session_items ∅ chat_id) with (@nil string). simpl.
  by replace (length l - MAX_HISTORY)%nat with 0%nat by lia.
Qed.

End Reachable.

Lemma history_bounded_fifo_witness :
  let rs := "P" :: replicate 300 "B" in
  Forall is_symbol rs
  ∧ session_items (appends (F:=float) 7 rs ∅) 7 = replicate 300 "B".
Proof.
  assert (H : Forall is_symbol ("P" :: replicate 300 "B")).
  { apply (bool_decide_unpack _). vm_compute. reflexivity. }
  split; [exact H|].
  destruct (history_bounded_fifo (A:=binary64) ascii_strip ascii_upper
              [] 7 _ H) as (_ & _ & _ & H301).
  apply H301; reflexivity.
Defined.

Lemma undo_after_append_witness :
  let us := [(5, Other (Some " p ")); (5, Other (Some "banker"))] in
  let USER := run (A:=binary64) ascii_strip ascii_upper us ∅ in
  let USER1 := (handle_add (F:=float) 5 "T" USER).1 in
  session_items USER 5 = ["P"; "B"]
  ∧ session_items USER1 5 = ["P"; "B"; "T"]
  ∧ history (session (do_undo (F:=float) 5 USER1).1 5) = history (session USER 5)
  ∧ (do_undo (F:=float) 5 USER1).2 = Ok (MsgUndo "T")
  ∧ (do_undo (F:=float) 8 USER).2 = Ok MsgNothingToUndo.
Proof.
  pose (us := [(5, Other (Some " p ")); (5, Other (Some "banker"))]).
  destruct (undo_after_append (A:=binary64) ascii_strip ascii_upper us 5 "T")
    as [Hroom _].
  destruct (undo_after_append (A:=binary64) ascii_strip ascii_upper us 8 "T")
    as [_ Hempty].
  split; [reflexivity|]. split; [reflexivity|].
  split; [apply Hroom; vm_compute; lia|].
  split; [apply Hroom; vm_compute; lia|].
  apply Hempty. reflexivity.
Defined.

Lemma do_undo_effect_witness :
  let USER := run (A:=binary64) ascii_strip ascii_upper
                [(1, Other (Some "P")); (1, Other (Some "B"))] ∅ in
  session_items USER 1 ≠ []
  ∧ (do_undo (F:=float) 1 USER).2 = Ok (MsgUndo "B")
  ∧ last_added (session (do_undo (F:=float) 1 USER).1 1) = None.
Proof.
  intros USER.
  assert (H : session_items USER 1 ≠ []) by (vm_compute; discriminate).
  split; [exact H|].
  destruct (do_undo_effect (F:=float) 1 USER H) as (l & x & Hl & Hmsg & Hst & _).
  assert (Hx : x = "B").
  { change (session_items USER 1) with (["P"] ++ ["B"]) in Hl.
    by apply app_inj_tail in Hl as [_ <-]. }
  split; [by rewrite Hmsg, Hx|]. by rewrite Hst.
Defined.

(** C9 as stated fails: after the chat sent "P", [last_added] is "P"; the
    undo that follows removes "P" from the history and also sets
    [last_added] to None. *)
Lemma do_undo_resets_last_added :
  ¬ (∀ (us : list (Z * update)) (chat_id : Z),
       let USER := run (A:=binary64) ascii_strip ascii_upper us ∅ in
       session_items USER chat_id ≠ [] →
       last_added (session (do_undo (F:=float) chat_id USER).1 chat_id)
       = last_added (session USER chat_id)).
Proof.
  intros H. specialize (H [(1, Other (Some "P"))] 1).
  vm_compute in H. by specialize (H ltac:(discriminate)).
Qed.

(** ** Prediction and statistics read the history only *)

Section Outputs.

Context {F : Type} {A : Arith F}.

Lemma streak_items (d1 d2 : Py.deque) :
  Py.items d1 = Py.items d2 → streak d1 = streak d2.
Proof. intros H. unfold streak, Py.truth. by rewrite H. Qed.

Lemma session_state (chat_id : Z) (USER : gmap Z UserState) :
  get_state chat_id USER = ((get_state chat_id USER).1, session USER chat_id).
Proof. unfold session. by destruct (get_state chat_id USER). Qed.

(** C4: [next_prediction] answers that the data is not enough, with the
    minimum 10 and the current number of items, exactly when the history has
    fewer than 10 items, and then it sends no prediction; the history
    [P,P,B,B,B,T] gets that answer with the count 6. *)
Theorem insufficient_data_iff (chat_id : Z) (USER : gmap Z UserState) :
  let n := Py.len (session_items USER chat_id) in
  let reply := (next_prediction (A:=A) chat_id USER).2 in
  MIN_FOR_PRED = 10
  ∧ (n < 10 →
     reply = Ok (MsgNotEnough 10 n)
     ∧ ∀ w_n last_seq post pick_name,
         reply ≠ Ok (MsgPrediction w_n last_seq post pick_name))
  ∧ (10 ≤ n → ∀ m k, reply ≠ Ok (MsgNotEnough m k))
  ∧ (session_items USER chat_id = ["P"; "P"; "B"; "B"; "B"; "T"] →
     reply = Ok (MsgNotEnough 10 6)).
Proof.
  intros n reply.
  assert (Hlow : n < 10 → reply = Ok (MsgNotEnough 10 n)).
  { intros Hn. unfold reply, next_prediction.
    rewrite session_state. fold (session_items USER chat_id). fold n.
    unfold MIN_FOR_PRED. by destruct (Z.ltb_spec n 10); [|lia]. }
  split; [reflexivity|]. split; [|split].
  - intros Hn. rewrite (Hlow Hn). split; [reflexivity | discriminate].
  - intros Hn m k. unfold reply, next_prediction.
    rewrite session_state. fold (session_items USER chat_id). fold n.
    unfold MIN_FOR_PRED. destruct (Z.ltb_spec n 10); [lia|]. simpl.
    destruct (dirichlet_posterior_mean _ _) as [post|]; [|discriminate].
    simpl. destruct (max_by_key _ _) as [pick_key|]; [|discriminate].
    simpl. destruct (Py.lookup name pick_key); discriminate.
  - intros Hsix.
    assert (Hn : n = 6) by (unfold n; by rewrite Hsix).
    rewrite Hlow by lia. by rewrite Hn.
Qed.

(** C10: what [send_stats] and [next_prediction] send is determined by the
    items of the history alone: two stores in which a chat has the same
    items in the same order get the same replies, whatever their
    [last_added] fields hold. *)
Theorem replies_depend_on_items_only
    (chat_id : Z) (USER1 USER2 : gmap Z UserState) :
  session_items USER1 chat_id = session_items USER2 chat_id →
  (send_stats (A:=A) chat_id USER1).2 = (send_stats (A:=A) chat_id USER2).2
  ∧ (next_prediction (A:=A) chat_id USER1).2
    = (next_prediction (A:=A) chat_id USER2).2.
Proof.
  unfold session_items. intros Hitems.
  pose proof (streak_items _ _ Hitems) as Hstreak.
  unfold send_stats, next_prediction.
  rewrite (session_state chat_id USER1), (session_state chat_id USER2).
  rewrite Hitems, Hstreak. split.
  - by destruct (_ =? 0).
  - by destruct (_ <? MIN_FOR_PRED).
Qed.

End Outputs.

Lemma insufficient_data_iff_witness :
  let USER := appends (F:=float) 3 ["P"; "P"; "B"; "B"; "B"; "T"] ∅ in
  Py.len (session_items USER 3) < 10
  ∧ session_items USER 3 = ["P"; "P"; "B"; "B"; "B"; "T"]
  ∧ (next_prediction (A:=binary64) 3 USER).2 = Ok (MsgNotEnough 10 6)
  ∧ 10 ≤ Py.len (session_items (appends (F:=float) 3 (replicate 10 "P") ∅) 3)
  ∧ (next_prediction (A:=binary64) 3
       (appends (F:=float) 3 (replicate 10 "P") ∅)).2 ≠ Ok (MsgNotEnough 10 10).
Proof.
  intros USER.
  destruct (insufficient_data_iff (A:=binary64) 3 USER)
    as (_ & Hlow & _ & Hsix).
  destruct (insufficient_data_iff (A:=binary64) 3
              (appends (F:=float) 3 (replicate 10 "P") ∅))
    as (_ & _ & Hhigh & _).
  split; [reflexivity|]. split; [reflexivity|].
  split; [apply Hsix; reflexivity|].
  split; [vm_compute; discriminate|].
  apply Hhigh. vm_compute. discriminate.
Defined.

Lemma replies_depend_on_items_only_witness :
  let h := Py.Deque ["P"; "B"; "B"] (Some MAX_HISTORY) in
  let USER1 : gmap Z UserState :=
    {[ 4 := {| history := h; last_added := Some "B" |} ]} in
  let USER2 : gmap Z UserState :=
    {[ 4 := {| history := h; last_added := None |} ]} in
  session_items USER1 4 = session_items USER2 4
  ∧ (send_stats (A:=binary64) 4 USER1).2 = (send_stats (A:=binary64) 4 USER2).2.
Proof.
  intros h USER1 USER2.
  assert (H : session_items USER1 4 = session_items USER2 4) by reflexivity.
  split; [exact H|].
  exact (proj1 (replies_depend_on_items_only (A:=binary64) 4 USER1 USER2 H)).
Defined.

(** ** Checks by enumeration are sound *)

Lemma first_maxb_sound {F : Type} (le lt : F → F → bool)
    (post : Py.dict F) (pick : string) :
  first_maxb le lt post pick = true → first_max le lt post pick.
Proof.
  unfold first_maxb. rewrite existsb_exists. intros (i & _ & Hi).
  destruct (post !! i) as [[k p]|] eqn:E; [|discriminate].
  apply andb_prop in Hi as [Hi Hlt]. apply andb_prop in Hi as [Hk Hle].
  apply String.eqb_eq in Hk as ->.
  rewrite forallb_forall in Hle, Hlt.
  exists i, p. split; [exact E|]. split.
  - intros j k q Hj. apply (Hle (k, q)).
    apply list_elem_of_In, list_elem_of_lookup. by exists j.
  - intros j k q Hji Hj. apply (Hlt (k, q)).
    apply list_elem_of_In, list_elem_of_lookup. exists j.
    by rewrite lookup_take_lt.
Qed.

Lemma all_counts_sound (n : nat) (f : nat → nat → nat → bool) :
  all_counts n f = true →
  ∀ a b c, (a + b + c < n)%nat → f a b c = true.
Proof.
  unfold all_counts. rewrite forallb_forall. intros Hall a b c Hsum.
  specialize (Hall a). rewrite forallb_forall in Hall.
  specialize (Hall ltac:(apply in_seq; lia) b).
  rewrite forallb_forall in Hall.
  apply Hall; apply in_seq; lia.
Qed.

(** ** The window and its counts *)

Lemma window_slice {X : Type} (h : list X) :
  MIN_FOR_PRED ≤ Py.len h →
  Py.slice_from (- Z.min PRED_WINDOW (Py.len h)) h
  = drop (length h - Nat.min 15 (length h)) h.
Proof.
  unfold MIN_FOR_PRED, PRED_WINDOW, Py.slice_from, Py.len. intros Hn.
  destruct (Z.ltb_spec (- Z.min 15 (Z.of_nat (length h))) 0); [|lia].
  f_equal. lia.
Qed.

Lemma window_length {X : Type} (h : list X) :
  length (drop (length h - Nat.min 15 (length h)) h) = Nat.min 15 (length h).
Proof. rewrite length_drop. lia. Qed.

Lemma count_occ_bounds (w : list string) :
  (count_occ String.string_dec w "P" + count_occ String.string_dec w "B"
   + count_occ String.string_dec w "T" ≤ length w)%nat.
Proof.
  induction w as [|x w IH]; [reflexivity|]. simpl.
  repeat destruct (String.string_dec x _); subst; try discriminate; lia.
Qed.

Lemma counts_from_occ (w : list string) :
  counts_from w
  = [ ("P", Z.of_nat (count_occ String.string_dec w "P"));
      ("B", Z.of_nat (count_occ String.string_dec w "B"));
      ("T", Z.of_nat (count_occ String.string_dec w "T")) ].
Proof. unfold counts_from. by rewrite !count_eq_occ. Qed.

(** ** dirichlet_posterior_mean *)

Section Posterior.

Context {F : Type} {A : Arith F}.

(** With a denominator that is not zero the posterior is the list of the
    three quotients, in the order P, B, T. *)
Lemma posterior_quotients (cP cB cT : Z) (alpha : option (Py.dict F)) :
  alpha = None ∨ alpha = Some default_alpha →
  let denom := fadd (fsum (Py.values default_alpha)) (of_int (cP + cB + cT)) in
  fis_zero denom = false →
  dirichlet_posterior_mean [("P", cP); ("B", cB); ("T", cT)] alpha
  = Ok [ ("P", fquot (fadd (of_int 1) (of_int cP)) denom);
         ("B", fquot (fadd (of_int 1) (of_int cB)) denom);
         ("T", fquot (fadd (of_int 1) (of_int cT)) denom) ].
Proof.
  intros Halpha denom Hz.
  assert (Hd : default default_alpha alpha = default_alpha)
    by (by destruct Halpha as [->| ->]).
  unfold dirichlet_posterior_mean. rewrite Hd.
  replace (Py.sum (Py.values [("P", cP); ("B", cB); ("T", cT)]))
    with (cP + cB + cT) by (unfold Py.sum; simpl; lia).
  fold denom. unfold truediv. simpl. rewrite Hz. reflexivity.
Qed.

Lemma posterior_shape (c : Py.dict Z) (alpha : option (Py.dict F))
    (post : Py.dict F) :
  alpha = None ∨ alpha = Some default_alpha →
  dirichlet_posterior_mean c alpha = Ok post →
  ∃ pP pB pT, post = [("P", pP); ("B", pB); ("T", pT)].
Proof.
  intros Halpha.
  assert (Hd : default default_alpha alpha = default_alpha)
    by (by destruct Halpha as [->| ->]).
  unfold dirichlet_posterior_mean. rewrite Hd. unfold truediv. simpl.
  destruct (fis_zero _); simpl; [discriminate|].
  intros [= <-]. eauto.
Qed.

Lemma first_max_name (le lt : F → F → bool) (pP pB pT : F) (pick : string) :
  first_max le lt [("P", pP); ("B", pB); ("T", pT)] pick →
  ∃ pick_name, Py.get name pick = Some pick_name.
Proof.
  intros (i & p & Hi & _).
  destruct i as [|[|[|i]]]; simpl in Hi; try discriminate;
    injection Hi as <- _; by eexists.
Qed.

End Posterior.

(** ** next_prediction on a history with enough data *)

Section Prediction.

Context {F : Type} {A : Arith F}.

(** On a posterior with the three keys, [max] and the lookup of the name
    both succeed. *)
Lemma prediction_chain (pP pB pT : F) (w_n : Z) (last_seq : string) :
  let post := [("P", pP); ("B", pB); ("T", pT)] in
  ∃ pick_name,
    (pick_key ← max_by_key (Py.keys post) (Py.get post);
     pick_name ← Py.lookup name pick_key;
     Ok (MsgPrediction w_n last_seq post pick_name))
    = Ok (MsgPrediction w_n last_seq post pick_name).
Proof.
  simpl. destruct (fgt pB pP); destruct (fgt pT _); simpl; by eexists.
Qed.

(** The reply once the guard on the length has passed. *)
Lemma next_prediction_body (chat_id : Z) (USER : gmap Z UserState) :
  let h := session_items USER chat_id in
  let window := drop (length h - Nat.min 15 (length h)) h in
  MIN_FOR_PRED ≤ Py.len h →
  (next_prediction (A:=A) chat_id USER).2
  = (post ← dirichlet_posterior_mean (counts_from window) (Some default_alpha);
     pick_key ← max_by_key (Py.keys post) (Py.get post);
     pick_name ← Py.lookup name pick_key;
     Ok (MsgPrediction (Py.len window) (String.concat "" window) post
           pick_name)).
Proof.
  intros h window Hn. unfold next_prediction.
  rewrite session_state. fold (session_items USER chat_id). fold h.
  destruct (Z.ltb_spec (Py.len h) MIN_FOR_PRED); [lia|]. simpl.
  by rewrite (window_slice h Hn).
Qed.

Lemma window_symbols (chat_id : Z) (USER : gmap Z UserState) :
  store_ok USER →
  let h := session_items USER chat_id in
  Forall is_symbol (drop (length h - Nat.min 15 (length h)) h).
Proof.
  intros Hok h. apply Forall_drop.
  by destruct (session_ok chat_id USER Hok) as (_ & _ & Hsym).
Qed.

Lemma prediction_formula (chat_id : Z) (USER : gmap Z UserState) :
  store_ok USER →
  forallb (denom_check (A:=A)) (seq 0 16) = true →
  let h := session_items USER chat_id in
  let window := drop (length h - Nat.min 15 (length h)) h in
  MIN_FOR_PRED ≤ Py.len h →
  ∃ post pick_name,
    (next_prediction (A:=A) chat_id USER).2
    = Ok (MsgPrediction (Py.len window) (String.concat "" window) post
            pick_name)
    ∧ ∀ s, s ∈ SYMBOLS →
        Py.get post s = smoothed_probability default_alpha window s.
Proof.
  intros Hok Hden h window Hn.
  rewrite (next_prediction_body chat_id USER Hn). fold h. fold window.
  pose proof (window_symbols chat_id USER Hok) as Hsym.
  fold h in Hsym. fold window in Hsym.
  pose proof (count_occ_symbols window Hsym) as Hsum.
  assert (Hlen : (length window < 16)%nat).
  { unfold window. rewrite window_length. lia. }
  rewrite forallb_forall in Hden.
  specialize (Hden (length window) ltac:(apply in_seq; lia)).
  unfold denom_check in Hden. apply negb_true_iff in Hden.
  rewrite counts_from_occ.
  set (cP := Z.of_nat (count_occ String.string_dec window "P")) in *.
  set (cB := Z.of_nat (count_occ String.string_dec window "B")) in *.
  set (cT := Z.of_nat (count_occ String.string_dec window "T")) in *.
  assert (Hc : cP + cB + cT = Py.len window) by (unfold Py.len; lia).
  pose proof (posterior_quotients cP cB cT (Some default_alpha)
                (or_intror eq_refl)) as Hpost.
  rewrite Hc in Hpost. specialize (Hpost Hden). rewrite Hpost.
  set (d := fadd (fsum (Py.values default_alpha)) (of_int (Py.len window))).
  destruct (prediction_chain
              (fquot (fadd (of_int 1) (of_int cP)) d)
              (fquot (fadd (of_int 1) (of_int cB)) d)
              (fquot (fadd (of_int 1) (of_int cT)) d)
              (Py.len window) (String.concat "" window))
    as [pick_name Hchain].
  eexists _, pick_name. split; [exact Hchain|].
  intros s Hs. unfold SYMBOLS in Hs.
  rewrite !elem_of_cons, elem_of_nil in Hs.
  by destruct Hs as [->|[->|[->|[]]]].
Qed.

Lemma prediction_pick (le lt : F → F → bool)
    (chat_id : Z) (USER : gmap Z UserState) :
  all_counts 16 (pick_check (A:=A) le lt) = true →
  MIN_FOR_PRED ≤ Py.len (session_items USER chat_id) →
  ∃ w_n last_seq post pick_name pick_key,
    (next_prediction (A:=A) chat_id USER).2
    = Ok (MsgPrediction w_n last_seq post pick_name)
    ∧ Py.keys post = ["P"; "B"; "T"]
    ∧ Py.get name pick_key = Some pick_name
    ∧ first_max le lt post pick_key.
Proof.
  intros Hall Hn.
  rewrite (next_prediction_body chat_id USER Hn).
  set (window := drop _ (session_items USER chat_id)).
  assert (Hlen : (length window < 16)%nat).
  { unfold window. rewrite window_length. lia. }
  pose proof (count_occ_bounds window) as Hsum.
  pose proof (all_counts_sound _ _ Hall
                (count_occ String.string_dec window "P")
                (count_occ String.string_dec window "B")
                (count_occ String.string_dec window "T")
                ltac:(lia)) as Hcheck.
  unfold pick_check, prediction_of_counts in Hcheck.
  rewrite counts_from_occ.
  destruct (dirichlet_posterior_mean _ _) as [post|] eqn:Epost;
    [|discriminate].
  cbv [mbind result_bind] in Hcheck |- *.
  destruct (max_by_key _ _) as [pick_key|]; [|discriminate].
  apply first_maxb_sound in Hcheck.
  destruct (posterior_shape _ _ _ (or_intror eq_refl) Epost)
    as (pP & pB & pT & ->).
  destruct (first_max_name _ _ _ _ _ _ Hcheck) as [pick_name Hname].
  unfold Py.lookup. rewrite Hname.
  by eexists _, _, _, pick_name, pick_key.
Qed.

End Prediction.

(** ** Binary64: what the bot computes *)

Lemma binary64_denominators :
  forallb (denom_check (A:=binary64)) (seq 0 16) = true.
Proof. vm_compute. reflexivity. Qed.

Lemma binary64_picks :
  all_counts 16 (pick_check (A:=binary64) PrimFloat.leb PrimFloat.ltb) = true.
Proof. vm_compute. reflexivity. Qed.

Lemma binary64_sums : all_counts 16 sum_check = true.
Proof. vm_compute. reflexivity. Qed.

Section Binary64.

#[local] Existing Instance binary64.
Variables (str_strip str_upper : string → string).

(** C1: on a history of at least 10 items, [next_prediction] takes the last
    min(15, len) items as its window, and the probability it computes for
    each of P, B, T is (prior + count in the window) / (sum of priors +
    window length), where every prior is 1.0 and their sum is 3.0. *)
Theorem next_prediction_window_formula
    (us : list (Z * update)) (chat_id : Z) :
  let USER := run (A:=binary64) str_strip str_upper us ∅ in
  let h := session_items USER chat_id in
  let window := drop (length h - Nat.min 15 (length h)) h in
  10 ≤ Py.len h →
  ∃ (post : Py.dict float) (pick_name : string),
    (next_prediction (A:=binary64) chat_id USER).2
    = Ok (MsgPrediction (Py.len window) (String.concat "" window) post
            pick_name)
    ∧ h = take (length h - Nat.min 15 (length h)) h ++ window
    ∧ length window = Nat.min 15 (length h)
    ∧ fsum (A:=binary64) (Py.values default_alpha) = 3%float
    ∧ ∀ s, s ∈ SYMBOLS →
        Py.get (default_alpha (A:=binary64)) s = Some 1%float
        ∧ Py.get post s
          = smoothed_probability (A:=binary64) default_alpha window s
        ∧ Py.get post s
          = Some ((1 + float_of_Z (Z.of_nat
                                     (count_occ String.string_dec window s)))
                  / (3 + float_of_Z (Py.len window)))%float.
Proof.
  intros USER h window Hn.
  destruct (prediction_formula (A:=binary64) chat_id USER
              (reachable_ok str_strip str_upper us) binary64_denominators Hn)
    as (post & pick_name & Hreply & Hpost).
  exists post, pick_name. split; [exact Hreply|].
  split; [symmetry; apply take_drop|]. split; [apply window_length|].
  split; [reflexivity|].
  intros s Hs. rewrite (Hpost s Hs). unfold SYMBOLS in Hs.
  rewrite !elem_of_cons, elem_of_nil in Hs.
  by destruct Hs as [->|[->|[->|[]]]].
Qed.

(** C3: on a history of at least 10 items the reply carries the smoothed
    probabilities of the window, one for each of P, B, T in this order, and
    the pick is the first of the three whose probability is the highest: no
    probability is above the pick's, and the symbols before the pick in the
    order have strictly lower probabilities, so that among tied symbols
    Player goes before Banker and Banker before Tie. *)
Theorem pick_is_first_max (us : list (Z * update)) (chat_id : Z) :
  let USER := run (A:=binary64) str_strip str_upper us ∅ in
  let h := session_items USER chat_id in
  let window := drop (length h - Nat.min 15 (length h)) h in
  10 ≤ Py.len h →
  ∃ (post : Py.dict float) (pick_name pick_key : string),
    (next_prediction (A:=binary64) chat_id USER).2
    = Ok (MsgPrediction (Py.len window) (String.concat "" window) post
            pick_name)
    ∧ Py.keys post = ["P"; "B"; "T"]
    ∧ (∀ s, s ∈ SYMBOLS →
         Py.get post s
         = smoothed_probability (A:=binary64) default_alpha window s
         ∧ Py.get post s
           = Some ((1 + float_of_Z (Z.of_nat
                                      (count_occ String.string_dec window s)))
                   / (3 + float_of_Z (Py.len window)))%float)
    ∧ Py.get name pick_key = Some pick_name
    ∧ first_max PrimFloat.leb PrimFloat.ltb post pick_key.
Proof.
  intros USER h window Hn.
  destruct (prediction_formula (A:=binary64) chat_id USER
              (reachable_ok str_strip str_upper us) binary64_denominators Hn)
    as (post & pick_name & Hreply & Hpost).
  destruct (prediction_pick (A:=binary64) _ _ chat_id USER binary64_picks Hn)
    as (w_n & last_seq & post' & pick_name' & pick_key & Hreply' & Hkeys
        & Hname & Hmax).
  fold h in Hreply. fold window in Hreply, Hpost.
  rewrite Hreply in Hreply'. injection Hreply' as _ _ <- <-.
  exists post, pick_name, pick_key.
  split; [exact Hreply|]. split; [exact Hkeys|].
  split; [|split; [exact Hname | exact Hmax]].
  intros s Hs. split; [exact (Hpost s Hs)|].
  rewrite (Hpost s Hs). unfold SYMBOLS in Hs.
  rewrite !elem_of_cons, elem_of_nil in Hs.
  by destruct Hs as [->|[->|[->|[]]]].
Qed.

End Binary64.

Lemma next_prediction_window_formula_witness :
  let us := (λ t, (2, Other (Some t)))
            <$> (replicate 7 "P" ++ replicate 5 "B" ++ replicate 3 "T") in
  let USER := run (A:=binary64) ascii_strip ascii_upper us ∅ in
  10 ≤ Py.len (session_items USER 2)
  ∧ ∃ post pick_name,
      (next_prediction (A:=binary64) 2 USER).2
      = Ok (MsgPrediction 15 "PPPPPPPBBBBBTTT" post pick_name)
      ∧ Py.get post "P" = Some (8 / 18)%float
      ∧ Py.get post "B" = Some (6 / 18)%float
      ∧ Py.get post "T" = Some (4 / 18)%float.
Proof.
  assert (HP : "P" ∈ SYMBOLS) by (by apply (bool_decide_unpack _)).
  assert (HB : "B" ∈ SYMBOLS) by (by apply (bool_decide_unpack _)).
  assert (HT : "T" ∈ SYMBOLS) by (by apply (bool_decide_unpack _)).
  intros us USER.
  assert (Hn : 10 ≤ Py.len (session_items USER 2)) by (vm_compute; discriminate).
  split; [exact Hn|].
  destruct (next_prediction_window_formula ascii_strip ascii_upper us 2 Hn)
    as (post & pick_name & Hreply & _ & _ & _ & Hpost).
  exists post, pick_name. split; [exact Hreply|].
  destruct (Hpost "P" HP) as (_ & _ & HvP).
  destruct (Hpost "B" HB) as (_ & _ & HvB).
  destruct (Hpost "T" HT) as (_ & _ & HvT).
  rewrite HvP, HvB, HvT. vm_compute. by repeat split.
Defined.

Lemma pick_is_first_max_witness :
  let us := (λ t, (2, Other (Some t)))
            <$> (replicate 2 "T" ++ replicate 4 "P" ++ replicate 4 "B") in
  let USER := run (A:=binary64) ascii_strip ascii_upper us ∅ in
  10 ≤ Py.len (session_items USER 2)
  ∧ ∃ post pick_key,
      (next_prediction (A:=binary64) 2 USER).2
      = Ok (MsgPrediction 10 "TTPPPPBBBB" post "Player")
      ∧ Py.get post "P" = Some (5 / 13)%float
      ∧ Py.get post "B" = Some (5 / 13)%float
      ∧ Py.get post "T" = Some (3 / 13)%float
      ∧ Py.get name pick_key = Some "Player"
      ∧ first_max PrimFloat.leb PrimFloat.ltb post pick_key.
Proof.
  intros us USER.
  assert (Hn : 10 ≤ Py.len (session_items USER 2)) by (vm_compute; discriminate).
  split; [exact Hn|].
  destruct (pick_is_first_max ascii_strip ascii_upper us 2 Hn)
    as (post & pick_name & pick_key & Hreply & _ & _ & Hname & Hmax).
  vm_compute in Hreply. injection Hreply as <- <-.
  eexists _, pick_key. split; [vm_compute; reflexivity|].
  split; [vm_compute; reflexivity|]. split; [vm_compute; reflexivity|].
  split; [vm_compute; reflexivity|]. split; [exact Hname | exact Hmax].
Defined.

(** ** Exact arithmetic: the values the floats approximate *)

Section ExactArith.

#[local] Existing Instance exact.

Lemma exact_sum (a b c : Z) :
  0 ≤ a → 0 ≤ b → 0 ≤ c →
  let d : Q := fadd (fsum (Py.values default_alpha)) (of_int (a + b + c)) in
  fis_zero d = false
  ∧ (fquot (fadd (of_int 1) (of_int a)) d
     + fquot (fadd (of_int 1) (of_int b)) d
     + fquot (fadd (of_int 1) (of_int c)) d == 1)%Q.
Proof.
  intros Ha Hb Hc d.
  assert (Hd : (d == 3 + inject_Z a + inject_Z b + inject_Z c)%Q).
  { unfold d, fsum. simpl. rewrite !inject_Z_plus. ring. }
  assert (Hpos : ∀ z, 0 ≤ z → (0 <= inject_Z z)%Q).
  { intros z Hz. change 0%Q with (inject_Z 0). by rewrite <- Zle_Qle. }
  pose proof (Hpos a Ha). pose proof (Hpos b Hb). pose proof (Hpos c Hc).
  assert (Hnz : ¬ (d == 0)%Q) by (rewrite Hd; lra).
  split.
  - simpl. destruct (Qeq_bool d 0) eqn:E; [|reflexivity].
    by apply Qeq_bool_eq in E.
  - simpl. field_simplify_eq; [|exact Hnz]. rewrite Hd. ring.
Qed.

Lemma exact_posterior (window : list string) :
  ∃ pP pB pT : Q,
    dirichlet_posterior_mean (counts_from window) None
    = Ok [("P", pP); ("B", pB); ("T", pT)]
    ∧ (pP + pB + pT == 1)%Q.
Proof.
  rewrite counts_from_occ.
  destruct (exact_sum (Z.of_nat (count_occ String.string_dec window "P"))
              (Z.of_nat (count_occ String.string_dec window "B"))
              (Z.of_nat (count_occ String.string_dec window "T")))
    as [Hz Hsum]; [lia..|].
  rewrite (posterior_quotients _ _ _ None (or_introl eq_refl) Hz).
  by eexists _, _, _.
Qed.

Lemma exact_denominators : forallb (denom_check (A:=exact)) (seq 0 16) = true.
Proof. vm_compute. reflexivity. Qed.

Lemma exact_picks :
  all_counts 16
    (pick_check (A:=exact) Qle_bool (λ x y, negb (Qle_bool y x))) = true.
Proof. vm_compute. reflexivity. Qed.

(** In exact arithmetic [next_prediction] obeys the same formula and picks
    the first maximum as well. *)
Lemma next_prediction_exact (str_strip str_upper : string → string)
    (us : list (Z * update)) (chat_id : Z) :
  let USER := run str_strip str_upper us ∅ in
  let h := session_items USER chat_id in
  let window := drop (length h - Nat.min 15 (length h)) h in
  10 ≤ Py.len h →
  ∃ (post : Py.dict Q) (pick_name pick_key : string),
    (next_prediction chat_id USER).2
    = Ok (MsgPrediction (Py.len window) (String.concat "" window) post
            pick_name)
    ∧ (∀ s, s ∈ SYMBOLS →
         Py.get post s = smoothed_probability default_alpha window s)
    ∧ Py.get name pick_key = Some pick_name
    ∧ first_max Qle_bool (λ x y, negb (Qle_bool y x)) post pick_key.
Proof.
  intros USER h window Hn.
  destruct (prediction_formula chat_id USER
              (reachable_ok str_strip str_upper us) exact_denominators Hn)
    as (post & pick_name & Hreply & Hpost).
  destruct (prediction_pick _ _ chat_id USER exact_picks Hn)
    as (w_n & last_seq & post' & pick_name' & pick_key & Hreply' & _
        & Hname & Hmax).
  rewrite Hreply in Hreply'. injection Hreply' as _ _ <- <-.
  by exists post, pick_name, pick_key.
Qed.

End ExactArith.

(** C6: in exact arithmetic the three probabilities of every window sum to
    1, and those of the empty window are 1/3 each; in binary64 the empty
    window gives the float 1/3 three times, and for every window of at most
    15 items, the longest [next_prediction] passes, the float sum is within
    2^-52 of 1.0. *)
Theorem smoothed_probabilities_sum :
  (∀ window : list string,
     ∃ pP pB pT : Q,
       dirichlet_posterior_mean (A:=exact) (counts_from window) None
       = Ok [("P", pP); ("B", pB); ("T", pT)]
       ∧ (pP + pB + pT == 1)%Q)
  ∧ dirichlet_posterior_mean (A:=exact) (counts_from []) None
    = Ok [("P", 1 # 3); ("B", 1 # 3); ("T", 1 # 3)]%Q
  ∧ dirichlet_posterior_mean (A:=binary64) (counts_from []) None
    = Ok [("P", 1 / 3); ("B", 1 / 3); ("T", 1 / 3)]%float
  ∧ (∀ window : list string,
       (length window ≤ 15)%nat →
       ∃ post : Py.dict float,
         dirichlet_posterior_mean (A:=binary64) (counts_from window) None
         = Ok post
         ∧ PrimFloat.leb
             (PrimFloat.abs (fsum (A:=binary64) (Py.values post) - 1)%float)
             0x1p-52%float = true).
Proof.
  split; [exact exact_posterior|].
  split; [reflexivity|]. split; [reflexivity|].
  intros window Hlen. rewrite counts_from_occ.
  pose proof (count_occ_bounds window) as Hsum.
  pose proof (all_counts_sound _ _ binary64_sums
                (count_occ String.string_dec window "P")
                (count_occ String.string_dec window "B")
                (count_occ String.string_dec window "T")
                ltac:(lia)) as Hcheck.
  unfold sum_check in Hcheck.
  destruct (dirichlet_posterior_mean _ _) as [post|]; [|discriminate].
  by exists post.
Qed.

Lemma smoothed_probabilities_sum_witness :
  let window := ["B"; "P"; "B"; "T"; "B"; "B"; "P"] in
  (length window ≤ 15)%nat
  ∧ ∃ post : Py.dict float,
      dirichlet_posterior_mean (A:=binary64) (counts_from window) None = Ok post
      ∧ PrimFloat.leb
          (PrimFloat.abs (fsum (A:=binary64) (Py.values post) - 1)%float)
          0x1p-52%float = true.
Proof.
  intros window.
  assert (H : (length window ≤ 15)%nat) by (vm_compute; lia).
  split; [exact H|].
  exact (proj2 (proj2 (proj2 smoothed_probabilities_sum)) window H).
Defined.

(** ** The scenarios of the specification, run in binary64 *)

Example scenario_fifteen_prediction :
  let h := replicate 7 "P" ++ replicate 5 "B" ++ replicate 3 "T" in
  (next_prediction (A:=binary64) 1 (appends (F:=float) 1 h ∅)).2
  = Ok (MsgPrediction 15 "PPPPPPPBBBBBTTT"
          [("P", 8 / 18); ("B", 6 / 18); ("T", 4 / 18)]%float "Player").
Proof. vm_compute. reflexivity. Qed.

Example scenario_fifteen_stats :
  let h := replicate 7 "P" ++ replicate 5 "B" ++ replicate 3 "T" in
  (send_stats (A:=binary64) 1 (appends (F:=float) 1 h ∅)).2
  = Ok (MsgStats 15 [("P", 7); ("B", 5); ("T", 3)]
          [("P", 7 / 15 * 100); ("B", 5 / 15 * 100); ("T", 3 / 15 * 100)]%float
          "Tie" 3 "PPPPPPPBBBBBTTT").
Proof. vm_compute. reflexivity. Qed.

Example scenario_empty_stats :
  streak (Py.deque_new (Some MAX_HISTORY)) = Ok (None, 0)
  ∧ (send_stats (A:=binary64) 1 ∅).2 = Ok MsgNoData.
Proof. split; reflexivity. Qed.

Example scenario_tie_goes_to_player :
  prediction_of_counts (A:=binary64) 5 5 5
  = Ok ([("P", 6 / 18); ("B", 6 / 18); ("T", 6 / 18)]%float, "P")
  ∧ prediction_of_counts (A:=binary64) 2 6 6
    = Ok ([("P", 3 / 17); ("B", 7 / 17); ("T", 7 / 17)]%float, "B").
Proof. split; vm_compute; reflexivity. Qed.

(** * Further properties of the handlers *)

(** ** Looking a session up *)

Section StoreFrame.

Context {F : Type} {A : Arith F}.
Variables (str_strip str_upper : string → string).

Lemma get_state_frame (chat_id chat' : Z) (USER : gmap Z UserState) :
  chat' ≠ chat_id → (get_state chat_id USER).1 !! chat' = USER !! chat'.
Proof.
  intros Hne. unfold get_state. destruct (USER !! chat_id); simpl; [done|].
  by apply lookup_insert_ne.
Qed.

Lemma get_state_keeps (chat_id chat' : Z) (st : UserState)
    (USER : gmap Z UserState) :
  USER !! chat' = Some st → (get_state chat_id USER).1 !! chat' = Some st.
Proof.
  intros Hst. unfold get_state. destruct (USER !! chat_id) eqn:E; simpl; [done|].
  rewrite lookup_insert_ne; [done|]. intros <-. congruence.
Qed.

Lemma session_lookup (chat_id : Z) (USER1 USER2 : gmap Z UserState) :
  USER1 !! chat_id = USER2 !! chat_id →
  session USER1 chat_id = session USER2 chat_id.
Proof.
  intros E. unfold session, get_state. rewrite E.
  by destruct (USER2 !! chat_id).
Qed.

(** X1: [get_state] creates lazily and never clears: a chat that is stored
    gets its state back with the store unchanged; an unseen chat gets an
    empty history bounded by MAX_HISTORY with [last_added] None; no other
    chat's entry changes, and a second lookup changes nothing more. *)
Theorem get_state_lazy (chat_id : Z) (USER : gmap Z UserState) :
  (∀ st, USER !! chat_id = Some st → get_state chat_id USER = (USER, st))
  ∧ (USER !! chat_id = None →
     (get_state chat_id USER).2
     = {| history := Py.Deque [] (Some 300%nat); last_added := None |})
  ∧ (get_state chat_id USER).1 !! chat_id = Some (get_state chat_id USER).2
  ∧ (∀ chat' st, USER !! chat' = Some st →
       (get_state chat_id USER).1 !! chat' = Some st)
  ∧ (∀ chat', chat' ≠ chat_id →
       (get_state chat_id USER).1 !! chat' = USER !! chat')
  ∧ get_state chat_id (get_state chat_id USER).1 = get_state chat_id USER.
Proof.
  split; [|split; [|split; [|split; [|split]]]].
  - intros st E. unfold get_state. by rewrite E.
  - intros E. unfold get_state. by rewrite E.
  - apply get_state_stored.
  - intros chat' st. apply get_state_keeps.
  - intros chat'. apply get_state_frame.
  - unfold get_state at 1. rewrite get_state_stored.
    by destruct (get_state chat_id USER).
Qed.

(** ** Sessions do not interfere *)

Lemma do_undo_frame (chat_id chat' : Z) (USER : gmap Z UserState) :
  chat' ≠ chat_id → (do_undo (F:=F) chat_id USER).1 !! chat' = USER !! chat'.
Proof.
  intros Hne. unfold do_undo.
  pose proof (get_state_frame chat_id chat' USER Hne) as Hg.
  destruct (get_state chat_id USER) as [U st]. simpl in Hg.
  destruct (negb (Py.truth (history st))); [exact Hg|].
  destruct (Py.pop (history st)) as [[removed h]|e]; [|exact Hg].
  simpl. by rewrite lookup_insert_ne.
Qed.

Lemma do_reset_frame (chat_id chat' : Z) (USER : gmap Z UserState) :
  chat' ≠ chat_id → (do_reset (F:=F) chat_id USER).1 !! chat' = USER !! chat'.
Proof.
  intros Hne. unfold do_reset.
  pose proof (get_state_frame chat_id chat' USER Hne) as Hg.
  destruct (get_state chat_id USER) as [U st]. simpl in Hg |- *.
  by rewrite lookup_insert_ne.
Qed.

Lemma handle_add_frame (chat_id chat' : Z) (r : string)
    (USER : gmap Z UserState) :
  chat' ≠ chat_id →
  (handle_add (F:=F) chat_id r USER).1 !! chat' = USER !! chat'.
Proof.
  intros Hne. rewrite handle_add_store, lookup_insert_ne by done.
  by apply get_state_frame.
Qed.

(** What [handle] can do: nothing (an unrecognised text or the help
    button), add one of the three results, or one of the four actions behind
    the buttons. *)
Lemma handle_cases (chat_id : Z) (m_text : option string)
    (USER : gmap Z UserState) :
  let res := handle (A:=A) str_strip str_upper chat_id m_text USER in
  res = (USER, Ok MsgUnrecognized)
  ∨ res = (USER, Ok MsgHelp)
  ∨ (∃ r, is_symbol r ∧ res = handle_add chat_id r USER)
  ∨ res = do_reset chat_id USER
  ∨ res = next_prediction chat_id USER
  ∨ res = send_stats chat_id USER
  ∨ res = do_undo chat_id USER.
Proof.
  unfold handle.
  assert (Hrest : ∀ text,
    let res := match normalize_result str_strip str_upper text with
               | Some r => if falsy (Some r) then (USER, Ok MsgUnrecognized)
                           else handle_add (F:=F) chat_id r USER
               | None => (USER, Ok MsgUnrecognized)
               end in
    res = (USER, Ok MsgUnrecognized)
    ∨ res = (USER, Ok MsgHelp)
    ∨ (∃ r, is_symbol r ∧ res = handle_add chat_id r USER)
    ∨ res = do_reset chat_id USER
    ∨ res = next_prediction (A:=A) chat_id USER
    ∨ res = send_stats (A:=A) chat_id USER
    ∨ res = do_undo chat_id USER).
  { intros text.
    destruct (normalize_result str_strip str_upper text) as [r|] eqn:E;
      [|by left].
    cbv zeta. destruct (falsy (Some r)); [by left|].
    right; right; left. exists r. split; [|done].
    by apply (normalize_result_symbol str_strip str_upper text). }
  cbv beta zeta.
  generalize (str_strip (if falsy m_text then "" else default "" m_text)).
  intros text.
  do 3 (destruct (String.eqb text _); [apply Hrest|]).
  destruct (String.eqb text _); [tauto|].
  destruct (String.eqb text _); [tauto|].
  destruct (String.eqb text _); [tauto|].
  destruct (String.eqb text _); [tauto|].
  destruct (String.eqb text _); [tauto|].
  apply Hrest.
Qed.

(** X2: a handler run for one chat leaves the stored state of every other
    chat exactly as it was. *)
Theorem dispatch_other_sessions
    (chat_id chat' : Z) (u : update) (USER : gmap Z UserState) :
  chat' ≠ chat_id →
  (dispatch (A:=A) str_strip str_upper chat_id u USER).1 !! chat'
  = USER !! chat'.
Proof.
  intros Hne.
  assert (Hq : (get_state chat_id USER).1 !! chat' = USER !! chat')
    by (by apply get_state_frame).
  destruct u; simpl.
  - reflexivity.
  - by rewrite send_stats_store.
  - by apply do_reset_frame.
  - by apply do_undo_frame.
  - by rewrite next_prediction_store.
  - destruct (handle_cases chat_id m_text USER)
      as [->|[->|[(r & _ & ->)|[->|[->|[->| ->]]]]]]; simpl.
    + reflexivity.
    + reflexivity.
    + by apply handle_add_frame.
    + by apply do_reset_frame.
    + by rewrite next_prediction_store.
    + by rewrite send_stats_store.
    + by apply do_undo_frame.
Qed.

(** X3: the two queries and [start] change no session: [start] leaves the
    store as it is, and [send_stats] and [next_prediction] leave every
    stored state in place, at most registering the empty session of an
    unseen chat; the items of every chat are the same afterwards. *)
Theorem queries_change_no_history (chat_id : Z) (USER : gmap Z UserState) :
  (start (F:=F) chat_id USER).1 = USER
  ∧ (send_stats (A:=A) chat_id USER).1 = (get_state chat_id USER).1
  ∧ (next_prediction (A:=A) chat_id USER).1 = (get_state chat_id USER).1
  ∧ (∀ chat' st, USER !! chat' = Some st →
       (send_stats (A:=A) chat_id USER).1 !! chat' = Some st
       ∧ (next_prediction (A:=A) chat_id USER).1 !! chat' = Some st)
  ∧ (∀ chat',
       session_items (send_stats (A:=A) chat_id USER).1 chat'
       = session_items USER chat'
       ∧ session_items (next_prediction (A:=A) chat_id USER).1 chat'
         = session_items USER chat').
Proof.
  rewrite send_stats_store, next_prediction_store.
  split; [reflexivity|]. split; [reflexivity|]. split; [reflexivity|].
  split.
  - intros chat' st Hst. split; by apply get_state_keeps.
  - intros chat'.
    assert (H : session_items (get_state chat_id USER).1 chat'
                = session_items USER chat').
    { unfold session_items. f_equal. f_equal.
      destruct (decide (chat' = chat_id)) as [->|Hne].
      - apply session_get_state.
      - by apply session_lookup, get_state_frame. }
    by split.
Qed.

End StoreFrame.

(** ** Reset, adding and undoing *)

Section Mutations.

Context {F : Type} {A : Arith F}.
Variables (str_strip str_upper : string → string).

Lemma do_reset_store (chat_id : Z) (USER : gmap Z UserState) :
  do_reset (F:=F) chat_id USER
  = (<[chat_id := {| history := Py.Deque []
                       (Py.maxlen (history (session USER chat_id)));
                     last_added := None |}]> (get_state chat_id USER).1,
     Ok MsgReset).
Proof.
  unfold do_reset, session. by destruct (get_state chat_id USER) as [U st].
Qed.

Lemma session_items_nil (chat_id : Z) (USER : gmap Z UserState)
    (st : UserState) :
  Py.items (history st) = [] →
  session_items (<[chat_id := st]> USER) chat_id = [].
Proof. intros H. unfold session_items. by rewrite session_stored. Qed.

Lemma next_prediction_short (chat_id : Z) (USER : gmap Z UserState) :
  Py.len (session_items USER chat_id) < MIN_FOR_PRED →
  (next_prediction (A:=A) chat_id USER).2
  = Ok (MsgNotEnough MIN_FOR_PRED (Py.len (session_items USER chat_id))).
Proof.
  intros Hn. unfold next_prediction.
  rewrite session_state. fold (session_items USER chat_id).
  by destruct (Z.ltb_spec (Py.len (session_items USER chat_id)) MIN_FOR_PRED);
    [|lia].
Qed.

Lemma send_stats_empty (chat_id : Z) (USER : gmap Z UserState) :
  session_items USER chat_id = [] →
  (send_stats (A:=A) chat_id USER).2 = Ok MsgNoData.
Proof.
  intros Hn. unfold send_stats.
  rewrite session_state. fold (session_items USER chat_id).
  by rewrite Hn.
Qed.

(** X4: whatever the history held, [do_reset] leaves the chat with a stored
    session whose history is empty, with the bound it had, and whose
    [last_added] is None, and answers with the reset message; right after it
    the statistics report no data, a prediction is refused with the count 0,
    and there is nothing to undo. *)
Theorem do_reset_clears (chat_id : Z) (USER : gmap Z UserState) :
  let USER' := (do_reset (F:=F) chat_id USER).1 in
  (do_reset (F:=F) chat_id USER).2 = Ok MsgReset
  ∧ USER' !! chat_id
    = Some {| history := Py.Deque []
                (Py.maxlen (history (session USER chat_id)));
              last_added := None |}
  ∧ session_items USER' chat_id = []
  ∧ (send_stats (A:=A) chat_id USER').2 = Ok MsgNoData
  ∧ (next_prediction (A:=A) chat_id USER').2 = Ok (MsgNotEnough 10 0)
  ∧ (do_undo (F:=F) chat_id USER').2 = Ok MsgNothingToUndo
  ∧ do_reset (F:=F) chat_id USER' = (USER', Ok MsgReset).
Proof.
  intros USER'. unfold USER'. rewrite do_reset_store. simpl.
  set (st := {| history := Py.Deque [] _; last_added := None |}).
  set (U := (get_state chat_id USER).1).
  assert (Hnil : session_items (<[chat_id:=st]> U) chat_id = [])
    by (by apply session_items_nil).
  split; [reflexivity|]. split; [apply lookup_insert_eq|].
  split; [exact Hnil|]. split; [by apply send_stats_empty|].
  split; [by rewrite next_prediction_short; rewrite Hnil|].
  split; [by rewrite do_undo_empty|].
  rewrite do_reset_store. unfold get_state. rewrite lookup_insert_eq.
  rewrite session_stored. simpl. by rewrite insert_insert_eq.
Qed.

(** The state of a chat after a result is added, on a well-formed store. *)
Lemma handle_add_items (chat_id : Z) (r : string) (USER : gmap Z UserState) :
  store_ok USER →
  let old := session_items USER chat_id in
  session_items (handle_add (F:=F) chat_id r USER).1 chat_id
  = drop (length (old ++ [r]) - MAX_HISTORY) (old ++ [r]).
Proof.
  intros Hok old. unfold session_items at 1.
  rewrite handle_add_session. simpl.
  destruct (session_ok chat_id USER Hok) as (Hm & Hlen & _).
  by destruct (append_items r _ Hm Hlen) as [-> _].
Qed.

Lemma handle_add_reply_store (chat_id : Z) (r : string)
    (USER : gmap Z UserState) :
  (handle_add (F:=F) chat_id r USER).2
  = Ok (MsgAdded r
          (Py.len (session_items (handle_add (F:=F) chat_id r USER).1
                     chat_id))).
Proof.
  unfold session_items. rewrite handle_add_session. simpl.
  unfold handle_add, session. by destruct (get_state chat_id USER).
Qed.

(** X5: adding a result to any reachable store puts it at the end of the
    history, records it in [last_added], and confirms it with the new total,
    which is the old total plus one until it stays at 300. *)
Theorem handle_add_confirms
    (us : list (Z * update)) (chat_id : Z) (r : string) :
  let USER := run (A:=A) str_strip str_upper us ∅ in
  let USER' := (handle_add (F:=F) chat_id r USER).1 in
  let n := length (session_items USER chat_id) in
  (handle_add (F:=F) chat_id r USER).2
  = Ok (MsgAdded r (Z.of_nat (Nat.min (n + 1) 300)))
  ∧ length (session_items USER' chat_id) = Nat.min (n + 1) 300
  ∧ last (session_items USER' chat_id) = Some r
  ∧ last_added (session USER' chat_id) = Some r.
Proof.
  intros USER USER' n.
  pose proof (reachable_ok (A:=A) str_strip str_upper us) as Hok.
  fold USER in Hok.
  pose proof (handle_add_items chat_id r USER Hok) as Hitems.
  fold USER' in Hitems. simpl in Hitems.
  destruct (session_ok chat_id USER Hok) as (_ & Hlen & _).
  fold (session_items USER chat_id) in Hlen. fold n in Hlen.
  assert (Hlen' : length (session_items USER' chat_id) = Nat.min (n + 1) 300).
  { rewrite Hitems, length_drop, length_app. simpl. fold n.
    unfold MAX_HISTORY in *. lia. }
  split; [|split; [exact Hlen'|split]].
  - rewrite handle_add_reply_store. fold USER'. unfold Py.len.
    by rewrite Hlen'.
  - rewrite Hitems. unfold n in Hlen. rewrite drop_app_le
      by (rewrite length_app; simpl; unfold MAX_HISTORY in *; lia).
    apply last_snoc.
  - unfold USER'. by rewrite handle_add_session.
Qed.

(** X6: at capacity the round trip of adding and undoing is lossy: when the
    history holds 300 items, adding a result evicts the oldest item, and the
    undo that follows removes the added result but does not bring the
    evicted item back, so the history is the old one without its first
    item. *)
Theorem undo_at_capacity_loses_oldest
    (us : list (Z * update)) (chat_id : Z) (s : string) :
  let USER := run (A:=A) str_strip str_upper us ∅ in
  let USER1 := (handle_add (F:=F) chat_id s USER).1 in
  length (session_items USER chat_id) = 300%nat →
  session_items USER1 chat_id = tail (session_items USER chat_id) ++ [s]
  ∧ (do_undo (F:=F) chat_id USER1).2 = Ok (MsgUndo s)
  ∧ session_items (do_undo (F:=F) chat_id USER1).1 chat_id
    = tail (session_items USER chat_id)
  ∧ length (session_items (do_undo (F:=F) chat_id USER1).1 chat_id) = 299%nat.
Proof.
  intros USER USER1 Hfull.
  pose proof (reachable_ok (A:=A) str_strip str_upper us) as Hok.
  fold USER in Hok.
  pose proof (handle_add_items chat_id s USER Hok) as Hitems.
  fold USER1 in Hitems. simpl in Hitems.
  assert (H1 : session_items USER1 chat_id
               = tail (session_items USER chat_id) ++ [s]).
  { rewrite Hitems, length_app, Hfull. simpl.
    change (300 + 1 - MAX_HISTORY)%nat with 1%nat.
    destruct (session_items USER chat_id); [discriminate Hfull|reflexivity]. }
  rewrite (do_undo_nonempty chat_id USER1 _ _ H1). simpl.
  assert (H2 : ∀ st, session_items (<[chat_id := st]> USER1) chat_id
                     = Py.items (history st)).
  { intros st. unfold session_items. by rewrite session_stored. }
  rewrite H2. simpl.
  split; [exact H1|]. split; [reflexivity|]. split; [reflexivity|].
  destruct (session_items USER chat_id); [discriminate Hfull|].
  simpl in Hfull |- *. lia.
Qed.

Lemma undos_items (chat_id : Z) (k : nat) (USER : gmap Z UserState) :
  session_items (undos (F:=F) chat_id k USER) chat_id
  = take (length (session_items USER chat_id) - k) (session_items USER chat_id)
  ∧ Py.maxlen (history (session (undos (F:=F) chat_id k USER) chat_id))
    = Py.maxlen (history (session USER chat_id)).
Proof.
  revert USER. induction k as [|k IH]; intros USER.
  - simpl. rewrite Nat.sub_0_r. by rewrite firstn_all.
  - simpl undos.
    destruct (session_items USER chat_id) as [|x l _] eqn:E using rev_ind.
    + rewrite (do_undo_empty chat_id USER E). simpl.
      destruct (IH (get_state chat_id USER).1) as [-> ->].
      unfold session_items in *. rewrite session_get_state, E.
      split; [by rewrite !take_nil|reflexivity].
    + rewrite (do_undo_nonempty chat_id USER l x E). simpl.
      destruct (IH (<[chat_id := {| history := Py.Deque l
                        (Py.maxlen (history (session USER chat_id)));
                      last_added := None |}]> USER)) as [-> ->].
      unfold session_items. rewrite session_stored. simpl.
      split; [|reflexivity].
      rewrite length_app. simpl.
      replace (length l + 1 - S k)%nat with (length l - k)%nat by lia.
      by rewrite take_app_le by lia.
Qed.

(** X7: undoing as many times as results were added, while the history had
    room for all of them, gives back exactly the history from before; and
    [k] undos in a row always remove the newest [k] items, or all of them
    when there are fewer. *)
Theorem undos_after_appends
    (us : list (Z * update)) (chat_id : Z) (rs : list string) :
  let USER := run (A:=A) str_strip str_upper us ∅ in
  (∀ k, session_items (undos (F:=F) chat_id k USER) chat_id
        = take (length (session_items USER chat_id) - k)
               (session_items USER chat_id))
  ∧ (Forall is_symbol rs →
     (length (session_items USER chat_id) + length rs ≤ 300)%nat →
     history (session (undos (F:=F) chat_id (length rs)
                         (appends (F:=F) chat_id rs USER)) chat_id)
     = history (session USER chat_id)).
Proof.
  intros USER. split; [intros k; apply undos_items|].
  intros Hrs Hroom.
  pose proof (reachable_ok (A:=A) str_strip str_upper us) as Hok.
  fold USER in Hok.
  destruct (appends_items (F:=F) chat_id rs USER Hok Hrs) as [Hok' Hitems].
  destruct (undos_items chat_id (length rs) (appends (F:=F) chat_id rs USER))
    as [Hu Hm].
  destruct (session_ok chat_id USER Hok) as (Hm0 & _ & _).
  destruct (session_ok chat_id _ Hok') as (Hm1 & _ & _).
  rewrite Hm1, <- Hm0 in Hm.
  unfold session_items in Hu at 1.
  destruct (history (session (undos _ _ _) chat_id)) as [its m].
  simpl in Hu, Hm. subst its m.
  rewrite Hitems.
  replace (length (session_items USER chat_id ++ rs) - MAX_HISTORY)%nat
    with 0%nat by (rewrite length_app; unfold MAX_HISTORY; lia).
  rewrite drop_0, length_app, Nat.add_sub, take_app_length.
  unfold session_items. by destruct (history (session USER chat_id)).
Qed.

End Mutations.

(** ** What every reachable store satisfies *)

Section Invariants.

Context {F : Type} {A : Arith F}.
Variables (str_strip str_upper : string → string).

Lemma last_drop_Some {X : Type} (k : nat) (l : list X) (y : X) :
  last (drop k l) = Some y → last l = Some y.
Proof.
  intros H. rewrite <- (take_drop k l), last_app. by rewrite H.
Qed.

Lemma append_last (r : string) (st : UserState) :
  state_ok st → last (Py.items (Py.append r (history st))) = Some r.
Proof.
  intros (Hm & Hlen & _).
  destruct (append_items r _ Hm Hlen) as [-> _].
  rewrite drop_app_le
    by (rewrite length_app; simpl length; unfold MAX_HISTORY in *; lia).
  apply last_snoc.
Qed.

Lemma get_state_last_ok (chat_id : Z) (USER : gmap Z UserState) :
  map_Forall (λ _, last_added_ok) USER →
  map_Forall (λ _, last_added_ok) (get_state chat_id USER).1.
Proof.
  intros H. unfold get_state. destruct (USER !! chat_id); simpl; [exact H|].
  apply map_Forall_insert_2; [|exact H]. by intros r.
Qed.

Lemma dispatch_last_ok (chat_id : Z) (u : update) (USER : gmap Z UserState) :
  store_ok USER →
  map_Forall (λ _, last_added_ok) USER →
  map_Forall (λ _, last_added_ok)
    (dispatch (A:=A) str_strip str_upper chat_id u USER).1.
Proof.
  intros Hok Hl.
  pose proof (get_state_last_ok chat_id USER Hl) as Hg.
  assert (Hreset : map_Forall (λ _, last_added_ok)
                     (do_reset (F:=F) chat_id USER).1).
  { rewrite do_reset_store. simpl.
    apply map_Forall_insert_2; [|exact Hg]. by intros r. }
  assert (Hundo : map_Forall (λ _, last_added_ok)
                    (do_undo (F:=F) chat_id USER).1).
  { unfold do_undo. destruct (get_state chat_id USER) as [U st].
    simpl in Hg. destruct (negb (Py.truth (history st))); [exact Hg|].
    destruct (Py.pop (history st)) as [[removed h]|e]; [|exact Hg].
    simpl. apply map_Forall_insert_2; [|exact Hg]. by intros r. }
  assert (Hadd : ∀ r, map_Forall (λ _, last_added_ok)
                        (handle_add (F:=F) chat_id r USER).1).
  { intros r. rewrite handle_add_store.
    apply map_Forall_insert_2; [|exact Hg].
    intros r' [= <-]. simpl. apply append_last.
    by apply session_ok. }
  destruct u; simpl.
  - exact Hl.
  - by rewrite send_stats_store.
  - exact Hreset.
  - exact Hundo.
  - by rewrite next_prediction_store.
  - destruct (handle_cases (A:=A) str_strip str_upper chat_id m_text USER)
      as [->|[->|[(r & _ & ->)|[->|[->|[->| ->]]]]]]; simpl; try done.
    + by rewrite next_prediction_store.
    + by rewrite send_stats_store.
Qed.

Lemma run_last_ok (us : list (Z * update)) (USER : gmap Z UserState) :
  store_ok USER →
  map_Forall (λ _, last_added_ok) USER →
  map_Forall (λ _, last_added_ok) (run (A:=A) str_strip str_upper us USER).
Proof.
  revert USER. induction us as [|[chat_id u] us IH]; intros USER Hok Hl;
    [exact Hl|].
  apply IH; [by apply dispatch_ok | by apply dispatch_last_ok].
Qed.

(** X8: in every store the bot can reach, every stored session has a deque
    bounded by 300, holds only the results "P", "B" and "T", and has a
    [last_added] that is either None or the newest item of its history. *)
Theorem reachable_sessions_well_formed
    (us : list (Z * update)) (chat_id : Z) (st : UserState) :
  run (A:=A) str_strip str_upper us ∅ !! chat_id = Some st →
  Py.maxlen (history st) = Some 300%nat
  ∧ (∀ x, x ∈ Py.items (history st) → x = "P" ∨ x = "B" ∨ x = "T")
  ∧ (last_added st = None
     ∨ ∃ r, last_added st = Some r ∧ last (Py.items (history st)) = Some r).
Proof.
  intros Hst.
  destruct (reachable_ok (A:=A) str_strip str_upper us _ _ Hst)
    as (Hm & _ & Hsym).
  pose proof (run_last_ok us ∅ (map_Forall_empty _) (map_Forall_empty _)
                _ _ Hst) as Hl.
  split; [exact Hm|]. split.
  - intros x Hx. rewrite Forall_forall in Hsym. specialize (Hsym x Hx).
    unfold is_symbol, SYMBOLS in Hsym.
    rewrite !elem_of_cons, elem_of_nil in Hsym. tauto.
  - destruct (last_added st) as [r|] eqn:E; [right|by left].
    exists r. split; [reflexivity|]. by apply Hl.
Qed.

(** ** The streak as results come in *)

Lemma streak_of_run (pre : list string) (x : string) (n : nat)
    (m : option nat) :
  last pre ≠ Some x →
  streak (Py.Deque (pre ++ replicate (S n) x) m) = Ok (Some x, Z.of_nat (S n)).
Proof.
  intros Hpre. rewrite replicate_S_end, app_assoc.
  unfold streak, Py.truth. simpl Py.items.
  destruct ((pre ++ replicate n x) ++ [x]) eqn:E.
  { by apply app_eq_nil in E as [_ ?]. }
  rewrite <- E. simpl negb. cbv iota.
  rewrite getitem_last. simpl mbind.
  unfold Py.len. rewrite !length_app, length_replicate. simpl length.
  replace (Z.to_nat (Z.of_nat (length pre + n + 1) - 2 + 1))
    with (length pre + n)%nat by lia.
  rewrite <- app_assoc, streak_loop_run by exact Hpre.
  simpl. do 2 f_equal. lia.
Qed.

(** The streak of a history, by cases on its items. *)
Lemma streak_cases (d : Py.deque) :
  (Py.items d = [] ∧ streak d = Ok (None, 0))
  ∨ ∃ pre x n,
      Py.items d = pre ++ replicate (S n) x
      ∧ last pre ≠ Some x
      ∧ streak d = Ok (Some x, Z.of_nat (S n)).
Proof.
  destruct d as [l m]. simpl.
  destruct l as [|x l _] using rev_ind; [by left|]. right.
  destruct (tail_run_exists x l) as (pre & n & -> & Hpre).
  exists pre, x, n. rewrite <- app_assoc, <- replicate_S_end.
  split; [reflexivity|]. split; [exact Hpre|]. by apply streak_of_run.
Qed.

(** X9: when a result [r] is added, the streak restarts at 1 if [r] differs
    from the newest item (or the history was empty), and grows by one if [r]
    repeats it, except that it stays at 300 once the whole bounded history
    is one run. *)
Theorem streak_after_add (us : list (Z * update)) (chat_id : Z) (r : string) :
  let USER := run (A:=A) str_strip str_upper us ∅ in
  let USER' := (handle_add (F:=F) chat_id r USER).1 in
  ∃ (newest : option string) (n : Z),
    streak (history (session USER chat_id)) = Ok (newest, n)
    ∧ streak (history (session USER' chat_id))
      = Ok (Some r,
            if decide (newest = Some r) then Z.min (n + 1) 300 else 1).
Proof.
  intros USER USER'.
  pose proof (reachable_ok (A:=A) str_strip str_upper us) as Hok.
  fold USER in Hok.
  destruct (session_ok chat_id USER Hok) as (Hm & Hlen & _).
  assert (Hnew : history (session USER' chat_id)
                 = Py.Deque (drop (length (session_items USER chat_id ++ [r])
                                   - MAX_HISTORY)
                               (session_items USER chat_id ++ [r]))
                     (Some MAX_HISTORY)).
  { unfold USER'. rewrite handle_add_session. simpl.
    destruct (append_items r _ Hm Hlen) as [Hi Hm'].
    destruct (Py.append r (history (session USER chat_id))) as [its m].
    simpl in Hi, Hm'. by subst. }
  rewrite Hnew. clear Hnew.
  fold (session_items USER chat_id) in Hlen.
  destruct (streak_cases (history (session USER chat_id)))
    as [[Hnil ->]|(pre & x & n & Hitems & Hpre & ->)].
  - exists None, 0. split; [reflexivity|].
    unfold session_items. rewrite Hnil. simpl.
    destruct (decide (None = Some r)); [discriminate|].
    by apply (streak_of_run [] r 0).
  - exists (Some x), (Z.of_nat (S n)). split; [reflexivity|].
    fold (session_items USER chat_id) in Hitems. rewrite Hitems in Hlen |- *.
    rewrite length_app, length_replicate in Hlen.
    rewrite !length_app, length_replicate. simpl length.
    destruct (decide (Some x = Some r)) as [[= ->]|Hne].
    + rewrite <- app_assoc, <- replicate_S_end.
      destruct (decide (length pre + S n < MAX_HISTORY)%nat) as [Hroom|Hfull].
      * replace (length pre + S n + 1 - MAX_HISTORY)%nat with 0%nat by lia.
        rewrite drop_0, (streak_of_run pre r (S n)) by exact Hpre.
        do 2 f_equal. unfold MAX_HISTORY in *. lia.
      * replace (length pre + S n + 1 - MAX_HISTORY)%nat with 1%nat by lia.
        destruct pre as [|y pre].
        -- simpl. rewrite (streak_of_run [] r n) by done.
           do 2 f_equal. simpl in Hlen, Hfull. unfold MAX_HISTORY in *. lia.
        -- simpl drop. rewrite drop_0.
           rewrite (streak_of_run pre r (S n)).
           ++ do 2 f_equal. simpl in Hlen. unfold MAX_HISTORY in *. lia.
           ++ intros Hl. apply Hpre. rewrite last_cons. by rewrite Hl.
    + assert (Hk : (length pre + S n + 1 - MAX_HISTORY
                    ≤ length (pre ++ replicate (S n) x))%nat)
        by (rewrite length_app, length_replicate; lia).
      rewrite drop_app_le by exact Hk.
      apply (streak_of_run _ r 0).
      intros Hl. apply last_drop_Some in Hl.
      rewrite replicate_S_end, app_assoc, last_snoc in Hl. congruence.
Qed.

End Invariants.

(** ** What a prediction depends on *)

Section PredictionInputs.

Context {F : Type} {A : Arith F}.

(** X10: the prediction reads the window only: two histories of at least
    10 items with the same last min(15, len) items get the same reply, so
    items older than the window never influence it. *)
Theorem prediction_reads_window_only
    (chat1 chat2 : Z) (USER1 USER2 : gmap Z UserState) :
  let h1 := session_items USER1 chat1 in
  let h2 := session_items USER2 chat2 in
  10 ≤ Py.len h1 → 10 ≤ Py.len h2 →
  drop (length h1 - Nat.min 15 (length h1)) h1
  = drop (length h2 - Nat.min 15 (length h2)) h2 →
  (next_prediction (A:=A) chat1 USER1).2
  = (next_prediction (A:=A) chat2 USER2).2.
Proof.
  intros h1 h2 H1 H2 Hw.
  rewrite (next_prediction_body chat1 USER1 H1).
  rewrite (next_prediction_body chat2 USER2 H2).
  fold h1 h2. by rewrite Hw.
Qed.

Lemma counts_from_perm (w1 w2 : list string) :
  w1 ≡ₚ w2 → counts_from w1 = counts_from w2.
Proof.
  intros Hp. rewrite !counts_from_occ.
  by rewrite !(proj1 (Permutation_count_occ String.string_dec w1 w2) Hp).
Qed.

(** X11: the order of the items inside the window does not matter: when
    the windows of two histories are permutations of each other, the two
    predictions carry the same window size, the same probabilities and the
    same pick (only the printed sequence differs). *)
Theorem prediction_ignores_order
    (chat1 chat2 : Z) (USER1 USER2 : gmap Z UserState) :
  let h1 := session_items USER1 chat1 in
  let h2 := session_items USER2 chat2 in
  10 ≤ Py.len h1 → 10 ≤ Py.len h2 →
  drop (length h1 - Nat.min 15 (length h1)) h1
  ≡ₚ drop (length h2 - Nat.min 15 (length h2)) h2 →
  match (next_prediction (A:=A) chat1 USER1).2,
        (next_prediction (A:=A) chat2 USER2).2 with
  | Ok (MsgPrediction n1 _ post1 pick1), Ok (MsgPrediction n2 _ post2 pick2) =>
      n1 = n2 ∧ post1 = post2 ∧ pick1 = pick2
  | Raise e1, Raise e2 => e1 = e2
  | _, _ => False
  end.
Proof.
  intros h1 h2 H1 H2 Hw.
  rewrite (next_prediction_body chat1 USER1 H1).
  rewrite (next_prediction_body chat2 USER2 H2).
  fold h1 h2. rewrite (counts_from_perm _ _ Hw).
  unfold Py.len. rewrite (Permutation_length Hw).
  destruct (dirichlet_posterior_mean _ _) as [post|e]; simpl; [|done].
  destruct (max_by_key _ _) as [pick|e]; simpl; [|done].
  by destruct (Py.lookup name pick).
Qed.

(** ** dirichlet_posterior_mean at its edges *)

Lemma posterior_keys {X : Type} (g1 : string → result X)
    (g2 : string → X → result F) (ks : list string) (post : Py.dict F) :
  mapM (λ k, a ← g1 k; v ← g2 k a; Ok (k, v)) ks = Ok post →
  Py.keys post = ks.
Proof.
  revert post. induction ks as [|k ks IH]; intros post; simpl.
  - by intros [= <-].
  - destruct (g1 k) as [a|e]; simpl; [|discriminate].
    destruct (g2 k a) as [v|e]; simpl; [|discriminate].
    destruct (mapM _ ks) as [rest|e]; simpl; [|discriminate].
    intros [= <-]. unfold Py.keys. simpl. f_equal. by apply IH.
Qed.

(** X12: on counts that are ints binary64 represents exactly, with an
    exact total, [dirichlet_posterior_mean] returns a dict with exactly the
    keys of the prior, in their order; an empty prior gives the empty dict;
    and a prior that is not empty and whose sum plus the total count is zero
    makes it raise ZeroDivisionError. *)
Theorem dirichlet_posterior_mean_edges (counts : Py.dict Z) :
  NoDup (Py.keys counts) →
  Forall int_exact (Py.values counts) →
  int_exact (Py.sum (Py.values counts)) →
  (∀ alpha post,
     NoDup (Py.keys (default default_alpha alpha)) →
     dirichlet_posterior_mean (A:=A) counts alpha = Ok post →
     Py.keys post = Py.keys (default default_alpha alpha))
  ∧ dirichlet_posterior_mean (A:=A) counts (Some []) = Ok []
  ∧ (∀ k a alpha,
       NoDup (Py.keys ((k, a) :: alpha)) →
       fis_zero (fadd (fsum (Py.values ((k, a) :: alpha)))
                      (of_int (Py.sum (Py.values counts)))) = true →
       dirichlet_posterior_mean (A:=A) counts (Some ((k, a) :: alpha))
       = Raise ZeroDivisionError).
Proof.
  intros _ _ _. split; [|split].
  - intros alpha post _ H.
    exact (posterior_keys
             (Py.lookup (default default_alpha alpha))
             (λ k a, truediv
                       (fadd a (of_int (Py.get_default counts k 0)))
                       (fadd (fsum (Py.values (default default_alpha alpha)))
                          (of_int (Py.sum (Py.values counts)))))
             _ post H).
  - reflexivity.
  - intros k a alpha _ Hz. unfold dirichlet_posterior_mean.
    simpl default. cbv zeta. revert Hz.
    generalize (fadd (fsum (Py.values ((k, a) :: alpha)))
                  (of_int (Py.sum (Py.values counts)))).
    intros denom Hz.
    assert (Hl : Py.lookup ((k, a) :: alpha) k = Ok a).
    { unfold Py.lookup. simpl. by rewrite String.eqb_refl. }
    change (Py.keys ((k, a) :: alpha)) with (k :: Py.keys alpha).
    simpl mapM. rewrite Hl. unfold truediv. rewrite Hz. reflexivity.
Qed.

End PredictionInputs.

(** ** send_stats on a history with data *)

Section Statistics.

Context {F : Type} {A : Arith F}.

Lemma symbol_name (x : string) :
  is_symbol x →
  ∃ txt, Py.get name x = Some txt ∧ Py.get_default name x "-" = txt.
Proof.
  unfold is_symbol, SYMBOLS. rewrite !elem_of_cons, elem_of_nil.
  intros [->|[->|[->|[]]]]; by eexists.
Qed.

Lemma slice_last20 {X : Type} (h : list X) :
  Py.slice_from (-20) h = drop (length h - 20) h.
Proof. unfold Py.slice_from, Py.len. simpl. f_equal. lia. Qed.

(** The reply of [send_stats] when the divisor is not zero. *)
Lemma send_stats_reply (chat_id : Z) (USER : gmap Z UserState) :
  store_ok USER →
  let h := session_items USER chat_id in
  let n := Py.len h in
  let c := λ s, Z.of_nat (count_occ String.string_dec h s) in
  h ≠ [] →
  fis_zero (of_int n) = false →
  ∃ (pre : list string) (x : string) (run : nat) (last_txt : string),
    h = pre ++ replicate (S run) x
    ∧ last pre ≠ Some x
    ∧ Py.get name x = Some last_txt
    ∧ (send_stats (A:=A) chat_id USER).2
      = Ok (MsgStats n
              [("P", c "P"); ("B", c "B"); ("T", c "T")]
              [("P", fmul (fquot (of_int (c "P")) (of_int n)) (of_int 100));
               ("B", fmul (fquot (of_int (c "B")) (of_int n)) (of_int 100));
               ("T", fmul (fquot (of_int (c "T")) (of_int n)) (of_int 100))]
              last_txt (Z.of_nat (S run))
              (String.concat "" (drop (length h - 20) h))).
Proof.
  intros Hok h n c Hne Hz.
  destruct (session_ok chat_id USER Hok) as (_ & _ & Hsym).
  fold (session_items USER chat_id) in Hsym. fold h in Hsym.
  destruct (streak_cases (history (session USER chat_id)))
    as [[Hnil _]|(pre & x & run & Hitems & Hpre & Hstreak)];
    [by fold (session_items USER chat_id) in Hnil|].
  fold (session_items USER chat_id) in Hitems. fold h in Hitems.
  assert (Hx : is_symbol x).
  { rewrite Hitems in Hsym. apply Forall_app in Hsym as [_ Hsym].
    by apply Forall_cons in Hsym as [? _]. }
  destruct (symbol_name x Hx) as (last_txt & Hname & Hdef).
  exists pre, x, run, last_txt.
  split; [exact Hitems|]. split; [exact Hpre|]. split; [exact Hname|].
  unfold send_stats. rewrite session_state.
  fold (session_items USER chat_id). fold h. fold n.
  destruct (Z.eqb_spec n 0) as [H0|_].
  { unfold n, Py.len in H0. destruct h; [done|simpl in H0; lia]. }
  cbv beta iota zeta. unfold snd. rewrite counts_from_occ. fold c.
  change (Py.keys [("P", c "P"); ("B", c "B"); ("T", c "T")])
    with ["P"; "B"; "T"].
  unfold truediv. simpl mapM. rewrite Hz. simpl mbind at 1.
  rewrite Hstreak. simpl mbind. rewrite Hdef, slice_last20.
  reflexivity.
Qed.

End Statistics.

Lemma binary64_stats_denominators :
  forallb (stats_denom_check (A:=binary64)) (seq 1 300) = true.
Proof. vm_compute. reflexivity. Qed.

Lemma binary64_count_picks : all_counts 16 count_pick_check = true.
Proof. vm_compute. reflexivity. Qed.

Section Binary64Extra.

#[local] Existing Instance binary64.
Variables (str_strip str_upper : string → string).

Lemma binary64_stats_nonzero (h : list string) :
  h ≠ [] → (length h ≤ MAX_HISTORY)%nat →
  fis_zero (of_int (Py.len h)) = false.
Proof.
  intros Hne Hlen.
  pose proof binary64_stats_denominators as H.
  rewrite forallb_forall in H.
  specialize (H (length h)). unfold stats_denom_check in H.
  apply negb_true_iff, H, in_seq.
  destruct h; [done|]. simpl in *. unfold MAX_HISTORY in Hlen. lia.
Qed.

(** X13: on a history that is not empty, [send_stats] never divides by
    zero and replies with the number of items, the three exact counts, the
    percentages [count / n * 100] as binary64 computes them, the name of
    the newest result with the length of its run at the tail, and the last
    20 items joined into one string. *)
Theorem send_stats_reports (us : list (Z * update)) (chat_id : Z) :
  let USER := run (A:=binary64) str_strip str_upper us ∅ in
  let h := session_items USER chat_id in
  let n := Py.len h in
  let c := λ s, Z.of_nat (count_occ String.string_dec h s) in
  h ≠ [] →
  ∃ (pre : list string) (x : string) (run : nat) (last_txt : string),
    h = pre ++ replicate (S run) x
    ∧ last pre ≠ Some x
    ∧ Py.get name x = Some last_txt
    ∧ (send_stats (A:=binary64) chat_id USER).2
      = Ok (MsgStats n
              [("P", c "P"); ("B", c "B"); ("T", c "T")]
              [("P", float_of_Z (c "P") / float_of_Z n * 100);
               ("B", float_of_Z (c "B") / float_of_Z n * 100);
               ("T", float_of_Z (c "T") / float_of_Z n * 100)]%float
              last_txt (Z.of_nat (S run))
              (String.concat "" (drop (length h - 20) h))).
Proof.
  intros USER h n c Hne.
  pose proof (reachable_ok (A:=binary64) str_strip str_upper us) as Hok.
  fold USER in Hok.
  destruct (session_ok chat_id USER Hok) as (_ & Hlen & _).
  exact (send_stats_reply (A:=binary64) chat_id USER Hok Hne
           (binary64_stats_nonzero h Hne Hlen)).
Qed.

(** X14: the pick is the most frequent result of the window: no result
    occurs more often in the window than the pick, and the results before
    the pick in the order P, B, T occur strictly less often. *)
Theorem pick_is_most_frequent (us : list (Z * update)) (chat_id : Z) :
  let USER := run (A:=binary64) str_strip str_upper us ∅ in
  let h := session_items USER chat_id in
  let window := drop (length h - Nat.min 15 (length h)) h in
  10 ≤ Py.len h →
  ∃ (post : Py.dict float) (pick_name pick_key : string),
    (next_prediction (A:=binary64) chat_id USER).2
    = Ok (MsgPrediction (Py.len window) (String.concat "" window) post
            pick_name)
    ∧ Py.get name pick_key = Some pick_name
    ∧ first_max Z.leb Z.ltb
        [("P", Z.of_nat (count_occ String.string_dec window "P"));
         ("B", Z.of_nat (count_occ String.string_dec window "B"));
         ("T", Z.of_nat (count_occ String.string_dec window "T"))]
        pick_key.
Proof.
  intros USER h window Hn.
  rewrite (next_prediction_body chat_id USER Hn). fold h. fold window.
  assert (Hlen : (length window < 16)%nat).
  { unfold window. rewrite window_length. lia. }
  pose proof (count_occ_bounds window) as Hsum.
  pose proof (all_counts_sound _ _ binary64_count_picks
                (count_occ String.string_dec window "P")
                (count_occ String.string_dec window "B")
                (count_occ String.string_dec window "T")
                ltac:(lia)) as Hcheck.
  unfold count_pick_check, prediction_of_counts in Hcheck.
  rewrite counts_from_occ.
  destruct (dirichlet_posterior_mean _ _) as [post|] eqn:Epost;
    [|discriminate].
  cbv [mbind result_bind] in Hcheck |- *.
  destruct (max_by_key _ _) as [pick_key|]; [|discriminate].
  apply first_maxb_sound in Hcheck.
  destruct (first_max_name _ _ _ _ _ _ Hcheck) as [pick_name Hname].
  unfold Py.lookup. rewrite Hname.
  by exists post, pick_name, pick_key.
Qed.

End Binary64Extra.

(** ** Exact arithmetic: percentages and probabilities *)

Section ExactExtra.

#[local] Existing Instance exact.
Variables (str_strip str_upper : string → string).

Lemma inject_Z_nonneg (z : Z) : 0 ≤ z → (0 <= inject_Z z)%Q.
Proof. intros Hz. change 0%Q with (inject_Z 0). by rewrite <- Zle_Qle. Qed.

Lemma exact_nonzero (z : Z) : 0 < z → fis_zero (of_int z) = false.
Proof.
  intros Hz. simpl. destruct (Qeq_bool (inject_Z z) 0) eqn:E; [|reflexivity].
  apply Qeq_bool_eq in E. unfold Qeq in E. simpl in E. lia.
Qed.

(** In exact arithmetic the three percentages of [send_stats] on a history
    that is not empty sum to 100. *)
Lemma percentages_sum_exact (us : list (Z * update)) (chat_id : Z) :
  let USER := run (A:=exact) str_strip str_upper us ∅ in
  session_items USER chat_id ≠ [] →
  ∃ n c (pP pB pT : Q) last_txt st_len last20,
    (send_stats (A:=exact) chat_id USER).2
    = Ok (MsgStats n c [("P", pP); ("B", pB); ("T", pT)]
            last_txt st_len last20)
    ∧ (pP + pB + pT == 100)%Q.
Proof.
  intros USER Hne.
  pose proof (reachable_ok (A:=exact) str_strip str_upper us) as Hok.
  fold USER in Hok.
  set (h := session_items USER chat_id) in *.
  assert (Hn : 0 < Py.len h).
  { unfold Py.len. destruct h; [done|simpl; lia]. }
  destruct (send_stats_reply (A:=exact) chat_id USER Hok Hne
              (exact_nonzero _ Hn))
    as (pre & x & run & last_txt & _ & _ & _ & Hreply).
  fold h in Hreply.
  eexists _, _, _, _, _, _, _, _. split; [exact Hreply|].
  destruct (session_ok chat_id USER Hok) as (_ & _ & Hsym).
  fold (session_items USER chat_id) in Hsym. fold h in Hsym.
  pose proof (count_occ_symbols h Hsym) as Hsum.
  assert (Hc : (inject_Z (Z.of_nat (count_occ String.string_dec h "P"))
                + inject_Z (Z.of_nat (count_occ String.string_dec h "B"))
                + inject_Z (Z.of_nat (count_occ String.string_dec h "T"))
                == inject_Z (Py.len h))%Q).
  { rewrite <- !inject_Z_plus. unfold Py.len. by rewrite <- Hsum, !Nat2Z.inj_add. }
  assert (Hnz : ¬ (inject_Z (Py.len h) == 0)%Q).
  { unfold Qeq. simpl. lia. }
  simpl. field_simplify_eq; [|exact Hnz].
  rewrite <- Hc. ring.
Qed.

(** In exact arithmetic the smoothing never gives probability 0 or 1: for
    every window each of the three probabilities lies strictly between 0 and
    1, and a result that occurs at least as often as another gets at least
    its probability, and conversely. *)
Lemma exact_probabilities_between (window : list string) :
  let c := λ s, Z.of_nat (count_occ String.string_dec window s) in
  ∃ pP pB pT : Q,
    dirichlet_posterior_mean (A:=exact) (counts_from window) None
    = Ok [("P", pP); ("B", pB); ("T", pT)]
    ∧ (0 < pP ∧ pP < 1)%Q ∧ (0 < pB ∧ pB < 1)%Q ∧ (0 < pT ∧ pT < 1)%Q
    ∧ ((pP <= pB)%Q ↔ c "P" ≤ c "B")
    ∧ ((pB <= pT)%Q ↔ c "B" ≤ c "T")
    ∧ ((pP <= pT)%Q ↔ c "P" ≤ c "T").
Proof.
  intros c.
  destruct (exact_sum (c "P") (c "B") (c "T")) as [Hz _]; [unfold c; lia..|].
  pose proof (posterior_quotients (c "P") (c "B") (c "T") None
                (or_introl eq_refl) Hz) as Hpost.
  eexists _, _, _. split; [rewrite counts_from_occ; exact Hpost|].
  set (d := fadd (fsum (Py.values default_alpha))
              (of_int (c "P" + c "B" + c "T"))).
  assert (Hd : (d == 3 + inject_Z (c "P") + inject_Z (c "B")
                     + inject_Z (c "T"))%Q).
  { unfold d, fsum. simpl. rewrite !inject_Z_plus. ring. }
  pose proof (inject_Z_nonneg (c "P") ltac:(unfold c; lia)) as HP.
  pose proof (inject_Z_nonneg (c "B") ltac:(unfold c; lia)) as HB.
  pose proof (inject_Z_nonneg (c "T") ltac:(unfold c; lia)) as HT.
  assert (Hdpos : (0 < d)%Q) by (rewrite Hd; lra).
  assert (Hbetween : ∀ a : Q, (0 <= a)%Q → (1 + a < d)%Q →
            (0 < (inject_Z 1 + a) / d ∧ (inject_Z 1 + a) / d < 1)%Q).
  { intros a Ha Hlt. change (inject_Z 1) with 1%Q. split.
    - apply Qlt_shift_div_l; [exact Hdpos|]. lra.
    - apply Qlt_shift_div_r; [exact Hdpos|]. lra. }
  assert (Hmono : ∀ a b : Z,
            ((inject_Z 1 + inject_Z a) / d <= (inject_Z 1 + inject_Z b) / d)%Q
            ↔ a ≤ b).
  { intros a b. unfold Qdiv.
    rewrite Qmult_le_r by (by apply Qinv_lt_0_compat).
    rewrite <- !inject_Z_plus, <- Zle_Qle. lia. }
  simpl fquot. simpl fadd. simpl of_int.
  split; [apply Hbetween; [exact HP | rewrite Hd; lra]|].
  split; [apply Hbetween; [exact HB | rewrite Hd; lra]|].
  split; [apply Hbetween; [exact HT | rewrite Hd; lra]|].
  split; [apply Hmono|]. split; apply Hmono.
Qed.

End ExactExtra.

(** ** No update makes the bot raise *)

Section NeverRaises.

#[local] Existing Instance binary64.
Variables (str_strip str_upper : string → string).

Lemma send_stats_total (chat_id : Z) (USER : gmap Z UserState) :
  store_ok USER → ∃ msg, (send_stats (A:=binary64) chat_id USER).2 = Ok msg.
Proof.
  intros Hok.
  destruct (session_items USER chat_id) as [|x l] eqn:E.
  - eexists. by apply send_stats_empty.
  - destruct (session_ok chat_id USER Hok) as (_ & Hlen & _).
    fold (session_items USER chat_id) in Hlen.
    assert (Hne : session_items USER chat_id ≠ []) by (by rewrite E).
    destruct (send_stats_reply (A:=binary64) chat_id USER Hok Hne
                (binary64_stats_nonzero _ Hne Hlen))
      as (? & ? & ? & ? & _ & _ & _ & ->).
    by eexists.
Qed.

Lemma next_prediction_total (chat_id : Z) (USER : gmap Z UserState) :
  store_ok USER →
  ∃ msg, (next_prediction (A:=binary64) chat_id USER).2 = Ok msg.
Proof.
  intros Hok.
  destruct (Z.lt_ge_cases (Py.len (session_items USER chat_id)) MIN_FOR_PRED)
    as [Hlt|Hge].
  - eexists. by apply next_prediction_short.
  - destruct (prediction_formula (A:=binary64) chat_id USER Hok
                binary64_denominators Hge) as (post & pick_name & -> & _).
    by eexists.
Qed.

Lemma do_undo_total (chat_id : Z) (USER : gmap Z UserState) :
  ∃ msg, (do_undo (F:=float) chat_id USER).2 = Ok msg.
Proof.
  destruct (session_items USER chat_id) as [|x l _] eqn:E using rev_ind.
  - rewrite (do_undo_empty chat_id USER E). by eexists.
  - rewrite (do_undo_nonempty chat_id USER l x E). by eexists.
Qed.

(** X17: whatever updates the bot has processed, the next one never makes
    a handler raise: with binary64 arithmetic every handler ends by sending
    a message, so no division by zero, missing key or empty [max] or [pop]
    can occur. *)
Theorem dispatch_never_raises
    (us : list (Z * update)) (chat_id : Z) (u : update) :
  ∃ msg,
    (dispatch (A:=binary64) str_strip str_upper chat_id u
       (run (A:=binary64) str_strip str_upper us ∅)).2
    = Ok msg.
Proof.
  pose proof (reachable_ok (A:=binary64) str_strip str_upper us) as Hok.
  set (USER := run str_strip str_upper us ∅) in *.
  destruct u; simpl.
  - by eexists.
  - by apply send_stats_total.
  - rewrite do_reset_store. by eexists.
  - apply do_undo_total.
  - by apply next_prediction_total.
  - destruct (handle_cases (A:=binary64) str_strip str_upper chat_id m_text USER)
      as [->|[->|[(r & _ & ->)|[->|[->|[->| ->]]]]]].
    + by eexists.
    + by eexists.
    + rewrite handle_add_reply_store. by eexists.
    + rewrite do_reset_store. by eexists.
    + by apply next_prediction_total.
    + by apply send_stats_total.
    + apply do_undo_total.
Qed.

End NeverRaises.

(** ** What a text message can do *)

Section HandleEffects.

Context {F : Type} {A : Arith F}.
Variables (str_strip str_upper : string → string).

(** X18: a text message can only do one of seven things: nothing at all
    when it is not recognised, nothing but the help reply, adding one of
    "P", "B", "T" to the chat's history, or exactly what the reset, next
    prediction, stats or undo action does.  In the first two cases the
    store is untouched. *)
Theorem handle_effects (chat_id : Z) (m_text : option string)
    (USER : gmap Z UserState) :
  let res := handle (A:=A) str_strip str_upper chat_id m_text USER in
  res = (USER, Ok MsgUnrecognized)
  ∨ res = (USER, Ok MsgHelp)
  ∨ (∃ r, (r = "P" ∨ r = "B" ∨ r = "T") ∧ res = handle_add chat_id r USER)
  ∨ res = do_reset chat_id USER
  ∨ res = next_prediction chat_id USER
  ∨ res = send_stats chat_id USER
  ∨ res = do_undo chat_id USER.
Proof.
  intros res. subst res.
  destruct (handle_cases (A:=A) str_strip str_upper chat_id m_text USER)
    as [H|[H|[(r & Hr & H)|H]]]; [tauto|tauto| |tauto].
  right; right; left. exists r. split; [|exact H].
  unfold is_symbol, SYMBOLS in Hr.
  rewrite !elem_of_cons, elem_of_nil in Hr. tauto.
Qed.

End HandleEffects.

(** ** Concrete instances *)

Lemma get_state_lazy_witness :
  let st := {| history := Py.Deque ["P"] (Some MAX_HISTORY);
               last_added := Some "P" |} in
  let USER : gmap Z UserState := {[ 4 := st ]} in
  USER !! 4 = Some st
  ∧ get_state 4 USER = (USER, st)
  ∧ USER !! 9 = None
  ∧ Py.items (history (get_state 9 USER).2) = []
  ∧ (get_state 9 USER).1 !! 4 = Some st.
Proof.
  intros st USER.
  destruct (get_state_lazy 4 USER) as (H1 & _).
  destruct (get_state_lazy 9 USER) as (_ & H2 & _ & H4 & _).
  assert (E : USER !! 4 = Some st) by reflexivity.
  assert (N : USER !! 9 = None) by reflexivity.
  split; [exact E|]. split; [exact (H1 st E)|]. split; [exact N|].
  split; [by rewrite (H2 N)|]. exact (H4 4 st E).
Defined.

Lemma dispatch_other_sessions_witness :
  let USER := appends (F:=float) 2 ["B"; "T"] ∅ in
  (2 : Z) ≠ 1
  ∧ (dispatch (A:=binary64) ascii_strip ascii_upper 1 (Other (Some "P"))
       USER).1 !! 2
    = USER !! 2.
Proof.
  intros USER.
  assert (H : (2 : Z) ≠ 1) by discriminate.
  split; [exact H|].
  exact (dispatch_other_sessions (A:=binary64) ascii_strip ascii_upper
           1 2 (Other (Some "P")) USER H).
Defined.

Lemma queries_change_no_history_witness :
  let st := {| history := Py.Deque ["P"; "B"] (Some MAX_HISTORY);
               last_added := Some "B" |} in
  let USER : gmap Z UserState := {[ 4 := st ]} in
  USER !! 4 = Some st
  ∧ (send_stats (A:=binary64) 9 USER).1 !! 4 = Some st
  ∧ (next_prediction (A:=binary64) 4 USER).1 !! 4 = Some st.
Proof.
  intros st USER.
  assert (E : USER !! 4 = Some st) by reflexivity.
  destruct (queries_change_no_history (A:=binary64) 9 USER)
    as (_ & _ & _ & H9 & _).
  destruct (queries_change_no_history (A:=binary64) 4 USER)
    as (_ & _ & _ & H4 & _).
  split; [exact E|]. split; [exact (proj1 (H9 4 st E))|].
  exact (proj2 (H4 4 st E)).
Defined.

Lemma undo_at_capacity_loses_oldest_witness :
  let us := (λ t, (3, Other (Some t))) <$> ("T" :: replicate 299 "P") in
  let USER := run (A:=binary64) ascii_strip ascii_upper us ∅ in
  let USER1 := (handle_add (F:=float) 3 "B" USER).1 in
  length (session_items USER 3) = 300%nat
  ∧ session_items (do_undo (F:=float) 3 USER1).1 3
    = tail (session_items USER 3)
  ∧ length (session_items (do_undo (F:=float) 3 USER1).1 3) = 299%nat.
Proof.
  intros us USER USER1.
  assert (H : length (session_items USER 3) = 300%nat)
    by (vm_compute; reflexivity).
  split; [exact H|].
  destruct (undo_at_capacity_loses_oldest (A:=binary64)
              ascii_strip ascii_upper us 3 "B" H) as (_ & _ & H1 & H2).
  split; [exact H1 | exact H2].
Defined.

Lemma undos_after_appends_witness :
  let us := [(6, Other (Some "tie"))] in
  let USER := run (A:=binary64) ascii_strip ascii_upper us ∅ in
  let rs := ["P"; "B"] in
  Forall is_symbol rs
  ∧ (length (session_items USER 6) + length rs ≤ 300)%nat
  ∧ history (session (undos (F:=float) 6 (length rs)
                        (appends (F:=float) 6 rs USER)) 6)
    = history (session USER 6).
Proof.
  intros us USER rs.
  assert (Hrs : Forall is_symbol rs)
    by (apply (bool_decide_unpack _); vm_compute; reflexivity).
  assert (Hroom : (length (session_items USER 6) + length rs ≤ 300)%nat)
    by (vm_compute; lia).
  split; [exact Hrs|]. split; [exact Hroom|].
  exact (proj2 (undos_after_appends (A:=binary64) ascii_strip ascii_upper
                  us 6 rs) Hrs Hroom).
Defined.

Lemma reachable_sessions_well_formed_witness :
  let us := [(1, Other (Some "P")); (1, Other (Some " b"))] in
  let st := {| history := Py.Deque ["P"; "B"] (Some MAX_HISTORY);
               last_added := Some "B" |} in
  run (A:=binary64) ascii_strip ascii_upper us ∅ !! 1 = Some st
  ∧ Py.maxlen (history st) = Some 300%nat
  ∧ (last_added st = None
     ∨ ∃ r, last_added st = Some r ∧ last (Py.items (history st)) = Some r).
Proof.
  intros us st.
  assert (H : run (A:=binary64) ascii_strip ascii_upper us ∅ !! 1 = Some st)
    by reflexivity.
  split; [exact H|].
  destruct (reachable_sessions_well_formed (A:=binary64)
              ascii_strip ascii_upper us 1 st H) as (Hm & _ & Hl).
  split; [exact Hm | exact Hl].
Defined.

Lemma prediction_reads_window_only_witness :
  let w := replicate 6 "P" ++ replicate 9 "B" in
  let USER1 := appends (F:=float) 1 (["T"; "T"; "T"] ++ w) ∅ in
  let USER2 := appends (F:=float) 2 w ∅ in
  10 ≤ Py.len (session_items USER1 1)
  ∧ 10 ≤ Py.len (session_items USER2 2)
  ∧ (next_prediction (A:=binary64) 1 USER1).2
    = (next_prediction (A:=binary64) 2 USER2).2.
Proof.
  intros w USER1 USER2.
  assert (H1 : 10 ≤ Py.len (session_items USER1 1)) by (vm_compute; discriminate).
  assert (H2 : 10 ≤ Py.len (session_items USER2 2)) by (vm_compute; discriminate).
  split; [exact H1|]. split; [exact H2|].
  apply (prediction_reads_window_only (A:=binary64) 1 2 USER1 USER2 H1 H2).
  reflexivity.
Defined.

Lemma prediction_ignores_order_witness :
  let w := replicate 6 "P" ++ replicate 4 "B" in
  let USER1 := appends (F:=float) 1 w ∅ in
  let USER2 := appends (F:=float) 2 (rev w) ∅ in
  10 ≤ Py.len (session_items USER1 1)
  ∧ 10 ≤ Py.len (session_items USER2 2)
  ∧ match (next_prediction (A:=binary64) 1 USER1).2,
          (next_prediction (A:=binary64) 2 USER2).2 with
    | Ok (MsgPrediction n1 _ post1 pick1),
      Ok (MsgPrediction n2 _ post2 pick2) =>
        n1 = n2 ∧ post1 = post2 ∧ pick1 = pick2
    | Raise e1, Raise e2 => e1 = e2
    | _, _ => False
    end.
Proof.
  intros w USER1 USER2.
  assert (H1 : 10 ≤ Py.len (session_items USER1 1)) by (vm_compute; discriminate).
  assert (H2 : 10 ≤ Py.len (session_items USER2 2)) by (vm_compute; discriminate).
  split; [exact H1|]. split; [exact H2|].
  apply (prediction_ignores_order (A:=binary64) 1 2 USER1 USER2 H1 H2).
  change (w ≡ₚ rev w). apply Permutation_rev.
Defined.

Lemma dirichlet_posterior_mean_edges_witness :
  let counts := [("P", 0); ("B", 0); ("T", 0)] in
  let zero := [("P", 0%float); ("B", 0%float); ("T", 0%float)] in
  NoDup (Py.keys counts)
  ∧ Forall int_exact (Py.values counts)
  ∧ int_exact (Py.sum (Py.values counts))
  ∧ NoDup (Py.keys zero)
  ∧ @fis_zero float binary64
      (@fadd float binary64 (fsum (A:=binary64) (Py.values zero))
         (@of_int float binary64 (Py.sum (Py.values counts)))) = true
  ∧ dirichlet_posterior_mean (A:=binary64) counts (Some zero)
    = Raise ZeroDivisionError
  ∧ ∃ post, dirichlet_posterior_mean (A:=binary64) counts None = Ok post
            ∧ Py.keys post = ["P"; "B"; "T"].
Proof.
  intros counts zero.
  assert (Hk : NoDup ["P"; "B"; "T"])
    by (apply (bool_decide_unpack _); vm_compute; reflexivity).
  assert (Hc : Forall int_exact (Py.values counts)).
  { unfold int_exact. repeat constructor; vm_compute; discriminate. }
  assert (Ht : int_exact (Py.sum (Py.values counts)))
    by (unfold int_exact; vm_compute; discriminate).
  destruct (dirichlet_posterior_mean_edges (A:=binary64) counts Hk Hc Ht)
    as (Hkeys & _ & Hzero).
  assert (Hz : @fis_zero float binary64
                 (@fadd float binary64 (fsum (A:=binary64) (Py.values zero))
                    (@of_int float binary64 (Py.sum (Py.values counts))))
               = true)
    by reflexivity.
  split; [exact Hk|]. split; [exact Hc|]. split; [exact Ht|].
  split; [exact Hk|]. split; [exact Hz|].
  split; [exact (Hzero "P" 0%float [("B", 0%float); ("T", 0%float)] Hk Hz)|].
  eexists. split; [reflexivity|]. by apply (Hkeys None _ Hk).
Defined.

Lemma send_stats_reports_witness :
  let us := (λ t, (5, Other (Some t))) <$> ["P"; "B"; "B"] in
  let USER := run (A:=binary64) ascii_strip ascii_upper us ∅ in
  session_items USER 5 ≠ []
  ∧ ∃ msg, (send_stats (A:=binary64) 5 USER).2 = Ok msg.
Proof.
  intros us USER.
  assert (H : session_items USER 5 ≠ []) by (vm_compute; discriminate).
  split; [exact H|].
  destruct (send_stats_reports ascii_strip ascii_upper us 5 H)
    as (? & ? & ? & ? & _ & _ & _ & Hreply).
  eexists. exact Hreply.
Defined.

Lemma pick_is_most_frequent_witness :
  let us := (λ t, (5, Other (Some t)))
            <$> (replicate 3 "P" ++ replicate 6 "T" ++ replicate 2 "B") in
  let USER := run (A:=binary64) ascii_strip ascii_upper us ∅ in
  10 ≤ Py.len (session_items USER 5)
  ∧ ∃ post pick_name,
      (next_prediction (A:=binary64) 5 USER).2
      = Ok (MsgPrediction 11 "PPPTTTTTTBB" post pick_name).
Proof.
  intros us USER.
  assert (H : 10 ≤ Py.len (session_items USER 5)) by (vm_compute; discriminate).
  split; [exact H|].
  destruct (pick_is_most_frequent ascii_strip ascii_upper us 5 H)
    as (post & pick_name & _ & Hreply & _).
  exists post, pick_name. exact Hreply.
Defined.

(** ** Binary64: percentages and probabilities *)

Lemma all_upto_sound (k : nat) (z : Z) (f : nat → Z → bool) :
  all_upto k z f = true →
  ∀ i, (i < k)%nat → f (k - 1 - i)%nat (z + Z.of_nat i) = true.
Proof.
  revert z. induction k as [|k IH]; intros z H i Hi; [lia|].
  simpl in H. apply andb_prop in H as [H0 H].
  destruct i as [|j].
  - replace (S k - 1 - 0)%nat with k by lia. by rewrite Z.add_0_r.
  - replace (S k - 1 - S j)%nat with (k - 1 - j)%nat by lia.
    replace (z + Z.of_nat (S j)) with (z + 1 + Z.of_nat j) by lia.
    apply IH; [exact H | lia].
Qed.

Lemma all_counts_Z_sound (n : nat) (f : Z → Z → Z → bool) :
  all_counts_Z n f = true →
  ∀ a b c : nat,
    (a + b + c < n)%nat → f (Z.of_nat a) (Z.of_nat b) (Z.of_nat c) = true.
Proof.
  unfold all_counts_Z. intros H a b c Hsum.
  pose proof (all_upto_sound _ _ _ H a ltac:(lia)) as Ha.
  rewrite Z.add_0_l in Ha.
  pose proof (all_upto_sound _ _ _ Ha b ltac:(lia)) as Hb.
  rewrite Z.add_0_l in Hb.
  pose proof (all_upto_sound _ _ _ Hb c ltac:(lia)) as Hc.
  by rewrite Z.add_0_l in Hc.
Qed.

Lemma binary64_pct_sums : all_counts_Z 301 pct_sum_check = true.
Proof. vm_compute. reflexivity. Qed.

Lemma binary64_between : all_counts 16 between_check = true.
Proof. vm_compute. reflexivity. Qed.

Section Binary64Numbers.

#[local] Existing Instance binary64.
Variables (str_strip str_upper : string → string).

(** X15: the three percentages that [send_stats] computes in binary64 on
    a history that is not empty sum to 100 up to 2^-45 (about 2.8e-14),
    whatever the history. *)
Theorem percentages_sum_to_100 (us : list (Z * update)) (chat_id : Z) :
  let USER := run (A:=binary64) str_strip str_upper us ∅ in
  let h := session_items USER chat_id in
  let pct := λ s,
    (float_of_Z (Z.of_nat (count_occ String.string_dec h s))
     / float_of_Z (Py.len h) * 100)%float in
  h ≠ [] →
  ∃ n c last_txt st_len last20,
    (send_stats (A:=binary64) chat_id USER).2
    = Ok (MsgStats n c [("P", pct "P"); ("B", pct "B"); ("T", pct "T")]
            last_txt st_len last20)
    ∧ PrimFloat.leb
        (PrimFloat.abs (0 + pct "P" + pct "B" + pct "T" - 100)%float)
        0x1p-45%float = true.
Proof.
  intros USER h pct Hne.
  pose proof (reachable_ok (A:=binary64) str_strip str_upper us) as Hok.
  fold USER in Hok.
  destruct (session_ok chat_id USER Hok) as (_ & Hlen & Hsym).
  fold (session_items USER chat_id) in Hlen, Hsym. fold h in Hlen, Hsym.
  destruct (send_stats_reply (A:=binary64) chat_id USER Hok Hne
              (binary64_stats_nonzero h Hne Hlen))
    as (pre & x & run & last_txt & _ & _ & _ & Hreply).
  fold h in Hreply.
  eexists _, _, _, _, _. split; [exact Hreply|].
  pose proof (count_occ_symbols h Hsym) as Hsum.
  pose proof (all_counts_Z_sound _ _ binary64_pct_sums
                (count_occ String.string_dec h "P")
                (count_occ String.string_dec h "B")
                (count_occ String.string_dec h "T")
                ltac:(unfold MAX_HISTORY in Hlen; lia)) as Hcheck.
  unfold pct_sum_check in Hcheck. cbv zeta in Hcheck.
  replace (Z.of_nat (count_occ String.string_dec h "P")
           + Z.of_nat (count_occ String.string_dec h "B")
           + Z.of_nat (count_occ String.string_dec h "T"))
    with (Py.len h) in Hcheck by (unfold Py.len; lia).
  destruct (Z.eqb_spec (Py.len h) 0) as [H0|_].
  { unfold Py.len in H0. destruct h; [done|simpl in H0; lia]. }
  exact Hcheck.
Qed.

(** X16: in binary64 the smoothing never gives probability 0 or 1: for
    every window of at most 15 items, the longest [next_prediction] passes,
    each of the three probabilities lies strictly between 0 and 1, and the
    probability of one result is at most that of another exactly when it
    occurs at most as often in the window. *)
Theorem probabilities_strictly_between (window : list string) :
  (length window ≤ 15)%nat →
  let c := λ s, Z.of_nat (count_occ String.string_dec window s) in
  ∃ pP pB pT : float,
    dirichlet_posterior_mean (A:=binary64) (counts_from window) None
    = Ok [("P", pP); ("B", pB); ("T", pT)]
    ∧ (∀ p, p ∈ [pP; pB; pT] →
         PrimFloat.ltb 0 p = true ∧ PrimFloat.ltb p 1 = true)
    ∧ (∀ s t ps pt,
         (s, ps) ∈ [("P", pP); ("B", pB); ("T", pT)] →
         (t, pt) ∈ [("P", pP); ("B", pB); ("T", pT)] →
         (PrimFloat.leb ps pt = true ↔ c s ≤ c t)).
Proof.
  intros Hlen c.
  pose proof (count_occ_bounds window) as Hsum.
  pose proof (all_counts_sound _ _ binary64_between
                (count_occ String.string_dec window "P")
                (count_occ String.string_dec window "B")
                (count_occ String.string_dec window "T")
                ltac:(lia)) as Hcheck.
  unfold between_check in Hcheck. cbv zeta in Hcheck.
  rewrite counts_from_occ.
  destruct (dirichlet_posterior_mean _ _) as [post|] eqn:Epost;
    [|discriminate].
  destruct (posterior_shape _ _ _ (or_introl eq_refl) Epost)
    as (pP & pB & pT & ->).
  exists pP, pB, pT. split; [reflexivity|].
  apply andb_prop in Hcheck as [Hb Ho].
  rewrite forallb_forall in Hb. rewrite forallb_forall in Ho.
  split.
  - intros p Hp.
    assert (Hin : ∃ s, In (s, p) [("P", pP); ("B", pB); ("T", pT)]).
    { rewrite !elem_of_cons, elem_of_nil in Hp.
      destruct Hp as [->|[->|[->|[]]]]; eexists; simpl; eauto. }
    destruct Hin as [s Hin]. specialize (Hb _ Hin). simpl in Hb.
    by apply andb_prop in Hb.
  - intros s t ps pt Hs Ht.
    apply list_elem_of_In in Hs, Ht.
    specialize (Ho _ Hs). rewrite forallb_forall in Ho.
    specialize (Ho _ Ht). apply Bool.eqb_prop in Ho.
    cbn [fst snd] in Ho. rewrite Ho, Z.leb_le.
    assert (Hget : ∀ u q, In (u, q) [("P", pP); ("B", pB); ("T", pT)] →
              Py.get_default
                [("P", Z.of_nat (count_occ String.string_dec window "P"));
                 ("B", Z.of_nat (count_occ String.string_dec window "B"));
                 ("T", Z.of_nat (count_occ String.string_dec window "T"))]
                u 0 = c u).
    { intros u q [[= <- _]|[[= <- _]|[[= <- _]|[]]]]; reflexivity. }
    by rewrite (Hget s ps Hs), (Hget t pt Ht).
Qed.

End Binary64Numbers.

Lemma percentages_sum_to_100_witness :
  let us := (λ t, (5, Other (Some t))) <$> ["P"; "B"; "B"] in
  let USER := run (A:=binary64) ascii_strip ascii_upper us ∅ in
  session_items USER 5 ≠ []
  ∧ ∃ n c pct last_txt st_len last20,
      (send_stats (A:=binary64) 5 USER).2
      = Ok (MsgStats n c pct last_txt st_len last20)
      ∧ PrimFloat.leb
          (PrimFloat.abs (fsum (A:=binary64) (Py.values pct) - 100)%float)
          0x1p-45%float = true.
Proof.
  intros us USER.
  assert (H : session_items USER 5 ≠ []) by (vm_compute; discriminate).
  split; [exact H|].
  destruct (percentages_sum_to_100 ascii_strip ascii_upper us 5 H)
    as (n & c & last_txt & st_len & last20 & Hreply & Hsum).
  eexists _, _, _, _, _, _. split; [exact Hreply | exact Hsum].
Defined.

Lemma probabilities_strictly_between_witness :
  let window := ["B"; "B"; "T"; "B"] in
  (length window ≤ 15)%nat
  ∧ ∃ pP pB pT : float,
      dirichlet_posterior_mean (A:=binary64) (counts_from window) None
      = Ok [("P", pP); ("B", pB); ("T", pT)]
      ∧ PrimFloat.ltb 0 pP = true ∧ PrimFloat.ltb pB 1 = true.
Proof.
  intros window.
  assert (H : (length window ≤ 15)%nat) by (vm_compute; lia).
  split; [exact H|].
  destruct (probabilities_strictly_between window H)
    as (pP & pB & pT & Hpost & Hb & _).
  exists pP, pB, pT. split; [exact Hpost|].
  split.
  - apply (Hb pP). apply list_elem_of_here.
  - apply (Hb pB). apply list_elem_of_further, list_elem_of_here.
Defined.
